(** * gantz-cli: the tunnel session and the MCP dispatcher

    A shallow embedding of [internal/config], [internal/executor],
    [internal/tunnel] and [internal/mcp], and the properties of the
    dispatcher, the multiplexer and the session that follow from the code.

    Conventions.
    - A Go [string] is a [string] of bytes (UTF-8 as Go stores it).
    - A Go [int] is a [Z]; no arithmetic that could overflow is performed.
    - A Go [interface{}] holding decoded or to-be-encoded JSON is a
      [json.Value]; the nil interface is [JNull], a float64 is a [JFloat].
    - A Go [error] is its description ([err.Error()]); nil is [None].
    - A pointer result that may be nil is an [option].
    - [time.Duration] fields and the progress lines printed by the
      dispatcher are left out: no property below reads them. *)

From Stdlib Require Import String Ascii List ZArith Bool Lia DecimalString.
From Stdlib Require Import Floats.SpecFloat.
Import ListNotations.
Local Open Scope string_scope.
#[local] Set Warnings "-register-all".

(** ** package strconv: the float64 of a number *)

Module strconv.

Definition digit (c : ascii) : option Z :=
  let n := nat_of_ascii c in
  if (48 <=? n)%nat && (n <=? 57)%nat then Some (Z.of_nat (n - 48)) else None.

(** The digits at the start of a string: their value in base ten after
    those read before, which gave [acc]; how many they are, after [count];
    and what follows them. *)
Fixpoint digits (s : string) (acc count : Z) : Z * Z * string :=
  match s with
  | String c rest =>
      match digit c with
      | Some d => digits rest (10 * acc + d) (count + 1)
      | None => (acc, count, s)
      end
  | EmptyString => (acc, count, s)
  end.

(** A number in decimal: [mant] times ten to the [exp10], negated when
    [neg] is set. *)
Record decimal := { neg : bool; mant : Z; exp10 : Z }.

(** The exponent part of a literal, or nothing: [e] or [E], a sign or
    none, and at least one digit, up to the end of the literal. *)
Definition exponent (s : string) : option Z :=
  match s with
  | EmptyString => Some 0%Z
  | String c rest =>
      if Ascii.eqb c "e"%char || Ascii.eqb c "E"%char then
        let '(minus, rest) :=
          match rest with
          | String "+"%char r => (false, r)
          | String "-"%char r => (true, r)
          | _ => (false, rest)
          end in
        match digits rest 0 0 with
        | (e, n, EmptyString) =>
            if (0 <? n)%Z then Some (if minus then (- e)%Z else e) else None
        | _ => None
        end
      else None
  end.

(** The literal of a JSON number read as a decimal: a minus sign or none;
    the integer part, one digit or more and no zero before another digit;
    a point and one digit or more, or nothing; an exponent part, or
    nothing.  [None] for a string that is no such literal: the decoder
    hands no other string to [ParseFloat]. *)
Definition readNumber (s : string) : option decimal :=
  let '(negative, s) :=
    match s with
    | String "-"%char rest => (true, rest)
    | _ => (false, s)
    end in
  let '(whole, n, rest) := digits s 0 0 in
  let leading_zero :=
    match s with
    | String "0"%char _ => (1 <? n)%Z
    | _ => false
    end in
  if (n =? 0)%Z || leading_zero then None
  else
    let '(m, frac, rest) :=
      match rest with
      | String "."%char r =>
          let '(m, k, r') := digits r whole 0 in
          (m, k, if (0 <? k)%Z then Some r' else None)
      | _ => (whole, 0%Z, Some rest)
      end in
    match rest with
    | None => None
    | Some rest =>
        match exponent rest with
        | Some e => Some {| neg := negative; mant := m; exp10 := (e - frac)%Z |}
        | None => None
        end
    end.

(** The float64 nearest to the quotient of [num] by [den], for [num] not
    negative and [den] positive, a tie going to the even mantissa.  The
    quotient is first cut to a binary fraction of more than 64 bits, with
    one more bit that records whether anything was cut off; rounding that
    exact number to the 53 bits of a float64 gives the same result as
    rounding the quotient.  A quotient of half the step above the largest
    float64, or more, gives an infinity. *)
Definition nearest_float64 (negative : bool) (num den : Z) : spec_float :=
  let shift := (Z.log2 den + 65)%Z in
  let '(q, r) := Z.div_eucl (num * 2 ^ shift) den in
  let sticky := if (r =? 0)%Z then 0%Z else 1%Z in
  let m := (2 * q + sticky)%Z in
  binary_normalize 53 1024 (if negative then (- m)%Z else m) (- (shift + 1))
    negative.

(** [strconv.ParseFloat(s, 64)] for the literal of a JSON number: the
    nearest float64, [None] being the error, which is that the number is
    out of the range of float64.  [None] stands as well for a string that
    is no such literal, whatever [ParseFloat] makes of it. *)
Definition ParseFloat (s : string) : option spec_float :=
  match readNumber s with
  | None => None
  | Some d =>
      let f :=
        if (0 <=? exp10 d)%Z
        then nearest_float64 (neg d) (mant d * 10 ^ exp10 d) 1
        else nearest_float64 (neg d) (mant d) (10 ^ (- exp10 d)) in
      match f with
      | S754_infinity _ => None
      | _ => Some f
      end
  end.

End strconv.

(** ** encoding/json, at the level of parsed values *)

Module json.

(** A JSON value.  In a text that parsed a number is its literal,
    [JNumber]; so is, in a value to encode, an integer of the program,
    which the encoder writes in decimal.  [JFloat] is a float64, which is
    what the decoder stores for a number that it decodes into an
    [interface{}]; the encoder writes it as the shortest decimal text that
    reads back as the same float64.  No text holds a [JFloat].  A string
    is the string that its text denotes, as the decoder unquotes it. *)
Inductive Value : Type :=
| JNull
| JBool (b : bool)
| JNumber (lit : string)
| JString (s : string)
| JArray (elems : list Value)
| JObject (members : list (string * Value))
| JFloat (f : spec_float).

(** [json.RawMessage]: [None] is the nil slice (the member was absent),
    [Some v] the raw text of the value [v].  A RawMessage filled in by the
    decoder always holds the text of one well-formed value. *)
Definition RawMessage : Type := option Value.

(** A Go [map[string]interface{}] is the list of its entries, one per key;
    [lookup] is [m[k]] and [map_set] is [m[k] = v]. *)
Fixpoint lookup (k : string) (m : list (string * Value)) : option Value :=
  match m with
  | [] => None
  | (k', v) :: rest => if String.eqb k k' then Some v else lookup k rest
  end.

Fixpoint map_set (k : string) (v : Value) (m : list (string * Value))
  : list (string * Value) :=
  match m with
  | [] => [(k, v)]
  | (k', v') :: rest =>
      if String.eqb k k' then (k, v) :: rest else (k', v') :: map_set k v rest
  end.

Definition keys (m : list (string * Value)) : list string := map fst m.

(** [convertNumber]: the float64 for the literal of a number, [None]
    being its error. *)
Definition convertNumber (lit : string) : option spec_float :=
  strconv.ParseFloat lit.

(** Decoding a value into an [interface{}]: a number becomes a float64,
    and an object becomes a map, so of several members with one key the
    last one stays.  [None] is the error that [Unmarshal] returns in the
    end when some number of the value has no float64: the code uses
    nothing of what was decoded then. *)
Fixpoint to_interface (v : Value) : option Value :=
  match v with
  | JNumber lit => option_map JFloat (convertNumber lit)
  | JArray elems =>
      option_map JArray
        ((fix each (l : list Value) {struct l} : option (list Value) :=
            match l with
            | [] => Some []
            | x :: rest =>
                match to_interface x, each rest with
                | Some y, Some ys => Some (y :: ys)
                | _, _ => None
                end
            end) elems)
  | JObject members =>
      option_map JObject
        ((fix store (ms acc : list (string * Value)) {struct ms}
            : option (list (string * Value)) :=
            match ms with
            | [] => Some acc
            | (k, x) :: rest =>
                match to_interface x with
                | Some y => store rest (map_set k y acc)
                | None => None
                end
            end) members [])
  | _ => Some v
  end.

(** Decoding an object into an existing map. *)
Fixpoint store_members (ms acc : list (string * Value))
  : option (list (string * Value)) :=
  match ms with
  | [] => Some acc
  | (k, x) :: rest =>
      match to_interface x with
      | Some y => store_members rest (map_set k y acc)
      | None => None
      end
  end.

Definition bytes (l : list nat) : string :=
  fold_right (fun n s => String (ascii_of_nat n) s) EmptyString l.

(** The folding under which a member key selects a struct field when no
    field has exactly that name: ASCII letters in upper case, and the two
    runes outside ASCII that fold to one, U+017F to S and U+212A to K.
    Every other rune is kept, since it folds to nothing in ASCII. *)
Fixpoint foldName (s : string) : string :=
  match s with
  | EmptyString => EmptyString
  | String c rest =>
      let n := nat_of_ascii c in
      if (97 <=? n)%nat && (n <=? 122)%nat
      then String (ascii_of_nat (n - 32)) (foldName rest)
      else
        match rest with
        | String c1 rest1 =>
            let n1 := nat_of_ascii c1 in
            if (n =? 197)%nat && (n1 =? 191)%nat
            then String "S"%char (foldName rest1)
            else
              match rest1 with
              | String c2 rest2 =>
                  if (n =? 226)%nat && (n1 =? 132)%nat
                     && (nat_of_ascii c2 =? 170)%nat
                  then String "K"%char (foldName rest2)
                  else String c (foldName rest)
              | EmptyString => String c (foldName rest)
              end
        | EmptyString => String c EmptyString
        end
  end.

(** Does the member key select the field tagged [name]? *)
Definition selects (key name : string) : bool :=
  String.eqb (foldName key) (foldName name).

(** The literal of an [int]. *)
Definition int_lit (z : Z) : Value :=
  JNumber (NilZero.string_of_int (Z.to_int z)).

End json.

(** ** package strings *)

Module strings.

Fixpoint stripPrefix (p s : string) : option string :=
  match p, s with
  | EmptyString, _ => Some s
  | String a p', String b s' =>
      if Ascii.eqb a b then stripPrefix p' s' else None
  | String _ _, EmptyString => None
  end.

Fixpoint reverse_onto (s acc : string) : string :=
  match s with
  | EmptyString => acc
  | String c rest => reverse_onto rest (String c acc)
  end.

Definition reverse (s : string) : string := reverse_onto s EmptyString.

(** The UTF-8 encodings of the runes for which [unicode.IsSpace] holds:
    tab, line feed, vertical tab, form feed, carriage return, space,
    U+0085, U+00A0, U+1680, U+2000 to U+200A, U+2028, U+2029, U+202F,
    U+205F, U+3000. *)
Definition space_runes : list string :=
  map json.bytes
    [ [9]; [10]; [11]; [12]; [13]; [32]; [194; 133]; [194; 160];
      [225; 154; 128];
      [226; 128; 128]; [226; 128; 129]; [226; 128; 130]; [226; 128; 131];
      [226; 128; 132]; [226; 128; 133]; [226; 128; 134]; [226; 128; 135];
      [226; 128; 136]; [226; 128; 137]; [226; 128; 138];
      [226; 128; 168]; [226; 128; 169]; [226; 128; 175];
      [226; 129; 159]; [227; 128; 128] ].

Fixpoint strip_any (ps : list string) (s : string) : option string :=
  match ps with
  | [] => None
  | p :: rest =>
      match stripPrefix p s with
      | Some s' => Some s'
      | None => strip_any rest s
      end
  end.

Fixpoint trim_left (ps : list string) (fuel : nat) (s : string) : string :=
  match fuel with
  | O => s
  | S fuel' =>
      match strip_any ps s with
      | Some s' => trim_left ps fuel' s'
      | None => s
      end
  end.

Definition TrimLeftSpace (s : string) : string :=
  trim_left space_runes (String.length s) s.

Definition TrimRightSpace (s : string) : string :=
  reverse (trim_left (map reverse space_runes) (String.length s) (reverse s)).

(** [strings.TrimSpace]: the string without its leading and trailing
    white space. *)
Definition TrimSpace (s : string) : string :=
  TrimRightSpace (TrimLeftSpace s).

(** [strings.Contains]. *)
Fixpoint Contains (s substr : string) : bool :=
  match stripPrefix substr s with
  | Some _ => true
  | None =>
      match s with
      | EmptyString => false
      | String _ rest => Contains rest substr
      end
  end.

(** The scan of [strings.ReplaceAll] for an [old] that is not empty: from
    the left, each occurrence of [old] is replaced by [new] and the scan
    goes on behind it; [skip] counts the bytes of an occurrence still to
    be passed over. *)
Fixpoint replace_from (old new : string) (skip : nat) (s : string) : string :=
  match s with
  | EmptyString => EmptyString
  | String c rest =>
      match skip with
      | S skip' => replace_from old new skip' rest
      | O =>
          match stripPrefix old s with
          | Some _ => new ++ replace_from old new (String.length old - 1) rest
          | None => String c (replace_from old new 0 rest)
          end
      end
  end.

(** [strings.ReplaceAll].  The code calls it with an [old] that is never
    empty; what Go does for an empty [old], inserting [new] around every
    rune, is not modelled, and the string is returned as it is. *)
Definition ReplaceAll (s old new : string) : string :=
  if String.eqb old "" then s else replace_from old new 0 s.

(** [strings.Split(s, sep)] for a separator of one byte. *)
Fixpoint SplitByte (sep : ascii) (s : string) : list string :=
  match s with
  | EmptyString => [EmptyString]
  | String c rest =>
      if Ascii.eqb c sep then EmptyString :: SplitByte sep rest
      else
        match SplitByte sep rest with
        | first :: others => String c first :: others
        | [] => [String c EmptyString]
        end
  end.

(** The string before and the string after the first occurrence of the
    byte, as [s[:idx]] and [s[idx+1:]] for [idx := strings.Index(s, ...)];
    [None] when the index is -1. *)
Fixpoint CutByte (sep : ascii) (s : string) : option (string * string) :=
  match s with
  | EmptyString => None
  | String c rest =>
      if Ascii.eqb c sep then Some (EmptyString, rest)
      else
        match CutByte sep rest with
        | Some (before, after) => Some (String c before, after)
        | None => None
        end
  end.

(** [strings.TrimSuffix]. *)
Definition TrimSuffix (s suffix : string) : string :=
  match stripPrefix (reverse suffix) (reverse s) with
  | Some rest => reverse rest
  | None => s
  end.

(** Does the string start, or end, with a white space rune? *)
Definition HasSpacePrefix (s : string) : bool :=
  match strip_any space_runes s with
  | Some _ => true
  | None => false
  end.

Definition HasSpaceSuffix (s : string) : bool :=
  match strip_any (map reverse space_runes) (reverse s) with
  | Some _ => true
  | None => false
  end.

End strings.


(** ** internal/config *)

Module config.

Record ServerConfig := { Port : Z }.

(** [Parameter]: one declared parameter of a tool. *)
Record Param := {
  param_Name : string;
  param_Type : string;
  param_Description : string;
  param_Required : bool;
  param_Default : string
}.

Record ScriptConfig := {
  Command : string;
  Args : list string;
  Shell : string;
  WorkingDir : string;
  script_Timeout : string
}.

Record HTTPConfig := {
  Method : string;
  URL : string;
  Headers : list (string * string);
  Body : string;
  http_Timeout : string;
  ExtractJSON : string
}.

Record Tool := {
  tool_Name : string;
  tool_Description : string;
  Parameters : list Param;
  Script : ScriptConfig;
  HTTP : HTTPConfig;
  Environment : list (string * string)
}.

Record Config := {
  Name : string;
  Description : string;
  Version : string;
  Server : ServerConfig;
  Tools : list Tool
}.

(** [GetTool]: the first tool with that name, nil when there is none. *)
Fixpoint find_tool (tools : list Tool) (name : string) : option Tool :=
  match tools with
  | [] => None
  | t :: rest =>
      if String.eqb (tool_Name t) name then Some t else find_tool rest name
  end.

Definition GetTool (c : Config) (name : string) : option Tool :=
  find_tool (Tools c) name.

Definition IsHTTP (t : Tool) : bool := negb (String.eqb (URL (HTTP t)) "").

(** *** [Load] *)

(** What [os.ReadFile] returns: the data, an error for which
    [os.IsNotExist] holds, or another error. *)
Inductive ReadFileResult :=
| FileData (data : string)
| FileNotExist
| FileError (err : string).

(** The errors of [Load], each with what its message is made of. *)
Inductive LoadError :=
| ConfigNotFound (path : string)
| CannotRead (path err : string)
| InvalidYAML (path err : string)
| NoTools (path : string)
| ToolNameMissing (number : nat)
| NoAction (tool : string)
| BothActions (tool : string)
| ParamNameMissing (tool : string) (number : nat).

Definition nl : string := json.bytes [10].
Definition quote : string := json.bytes [34].
Definition decimal (n : nat) : string := NilZero.string_of_uint (Nat.to_uint n).

Definition message (e : LoadError) : string :=
  match e with
  | ConfigNotFound path =>
      "config file '" ++ path ++ "' not found" ++ nl ++ nl
      ++ "  Run 'gantz init' to create a sample config file"
  | CannotRead path err => "cannot read '" ++ path ++ "': " ++ err
  | InvalidYAML path err =>
      "invalid YAML in '" ++ path ++ "': " ++ err ++ nl ++ nl
      ++ "  Check for syntax errors like incorrect indentation or missing colons"
  | NoTools path =>
      "no tools defined in '" ++ path ++ "'" ++ nl ++ nl
      ++ "  Add at least one tool with either 'script' or 'http' configuration"
  | ToolNameMissing number =>
      "tool #" ++ decimal number ++ " is missing a name" ++ nl ++ nl
      ++ "  Every tool needs a 'name' field"
  | NoAction tool =>
      "tool '" ++ tool ++ "' has no action defined" ++ nl ++ nl
      ++ "  Add either:" ++ nl
      ++ "  - script.shell: " ++ quote ++ "your command" ++ quote ++ nl
      ++ "  - script.command: " ++ quote ++ "/path/to/script" ++ quote ++ nl
      ++ "  - http.url: " ++ quote ++ "https://api.example.com" ++ quote
  | BothActions tool =>
      "tool '" ++ tool ++ "' has both script and http defined" ++ nl ++ nl
      ++ "  Use only one: either 'script' or 'http'"
  | ParamNameMissing tool number =>
      "tool '" ++ tool ++ "' parameter #" ++ decimal number ++ " is missing a name"
  end.

(** The defaults for the name, the version and the port. *)
Definition with_defaults (cfg : Config) : Config :=
  {| Name := if String.eqb (Name cfg) "" then "gantz-local" else Name cfg;
     Description := Description cfg;
     Version := if String.eqb (Version cfg) "" then "1.0.0" else Version cfg;
     Server :=
       {| Port := if Z.eqb (Port (Server cfg)) 0 then 3000 else Port (Server cfg) |};
     Tools := Tools cfg |}.

Definition hasScript (tool : Tool) : bool :=
  negb (String.eqb (Command (Script tool)) "")
  || negb (String.eqb (Shell (Script tool)) "").

Definition hasHTTP (tool : Tool) : bool :=
  negb (String.eqb (URL (HTTP tool)) "").

(** The loop over the parameters of one tool, from the parameter at index
    [j]: the parameters with the default type filled in, or the error of
    the first parameter without a name. *)
Fixpoint validate_params (tool : string) (j : nat) (params : list Param)
  : list Param + LoadError :=
  match params with
  | [] => inl []
  | param :: rest =>
      if String.eqb (param_Name param) ""
      then inr (ParamNameMissing tool (j + 1))
      else
        let param :=
          if String.eqb (param_Type param) ""
          then {| param_Name := param_Name param; param_Type := "string";
                  param_Description := param_Description param;
                  param_Required := param_Required param;
                  param_Default := param_Default param |}
          else param in
        match validate_params tool (S j) rest with
        | inl rest => inl (param :: rest)
        | inr e => inr e
        end
  end.

(** The body of the loop over the tools, for the tool at index [i]. *)
Definition validate_tool (i : nat) (tool : Tool) : Tool + LoadError :=
  if String.eqb (tool_Name tool) "" then inr (ToolNameMissing (i + 1))
  else if negb (hasScript tool) && negb (hasHTTP tool)
  then inr (NoAction (tool_Name tool))
  else if hasScript tool && hasHTTP tool
  then inr (BothActions (tool_Name tool))
  else
    let http :=
      if hasHTTP tool && String.eqb (Method (HTTP tool)) ""
      then {| Method := "GET"; URL := URL (HTTP tool);
              Headers := Headers (HTTP tool); Body := Body (HTTP tool);
              http_Timeout := http_Timeout (HTTP tool);
              ExtractJSON := ExtractJSON (HTTP tool) |}
      else HTTP tool in
    match validate_params (tool_Name tool) 0 (Parameters tool) with
    | inl params =>
        inl {| tool_Name := tool_Name tool;
               tool_Description := tool_Description tool;
               Parameters := params; Script := Script tool; HTTP := http;
               Environment := Environment tool |}
    | inr e => inr e
    end.

Fixpoint validate_tools (i : nat) (tools : list Tool) : list Tool + LoadError :=
  match tools with
  | [] => inl []
  | tool :: rest =>
      match validate_tool i tool with
      | inl tool =>
          match validate_tools (S i) rest with
          | inl rest => inl (tool :: rest)
          | inr e => inr e
          end
      | inr e => inr e
      end
  end.

Section Load.

(** The file system, the environment and the YAML decoder: what
    [os.ReadFile] returns for a path, [os.ExpandEnv], and what
    [yaml.Unmarshal] makes of a text, a configuration or an error. *)
Variable ReadFile : string -> ReadFileResult.
Variable ExpandEnv : string -> string.
Variable yaml_Unmarshal : string -> Config + string.

(** [Load]: the configuration, or the error in place of the nil it
    returns then. *)
Definition Load (path : string) : Config + LoadError :=
  match ReadFile path with
  | FileNotExist => inr (ConfigNotFound path)
  | FileError err => inr (CannotRead path err)
  | FileData data =>
      match yaml_Unmarshal (ExpandEnv data) with
      | inr err => inr (InvalidYAML path err)
      | inl cfg =>
          let cfg := with_defaults cfg in
          if (List.length (Tools cfg) =? 0)%nat then inr (NoTools path)
          else
            match validate_tools 0 (Tools cfg) with
            | inl tools =>
                inl {| Name := Name cfg; Description := Description cfg;
                       Version := Version cfg; Server := Server cfg;
                       Tools := tools |}
            | inr e => inr e
            end
      end
  end.

End Load.

End config.

(** ** internal/executor *)

Module executor.

Definition error : Type := string.

(** The arguments of a call: a [map[string]interface{}], nil when the
    request gave none. *)
Definition ArgMap : Type := option (list (string * json.Value)).

Record Result := {
  Output : string;
  ExitCode : Z;
  Error : option error
}.

(** What [cmd.Run] reports: nil, an [*exec.ExitError] with the exit code of
    the process, or another error (the command did not start, the deadline
    passed before it did, ...). *)
Inductive RunError :=
| ExitError (code : Z) (desc : string)
| OtherRunError (desc : string).

Definition run_error_desc (e : RunError) : error :=
  match e with
  | ExitError _ desc => desc
  | OtherRunError desc => desc
  end.

(** One run of the command built for a tool: the bytes collected from its
    stdout and stderr, and what [cmd.Run] returned. *)
Record CmdOutcome := {
  stdout : string;
  stderr : string;
  run_err : option RunError
}.

(** One HTTP exchange for a tool: the request could not be created, the
    client failed, the body could not be read, or a response arrived with
    a status code and a body. *)
Inductive HTTPOutcome :=
| NewRequestFailed (err : error)
| DoFailed (err : error)
| ReadAllFailed (err : error)
| Responded (StatusCode : Z) (body : string).

(** *** [extractJSONPath] *)

Record pathSegment := {
  key : string;
  index : Z
}.

Section JSONPath.

(** The standard library around the two functions: the value that
    [json.Unmarshal] stores into an empty interface for a text, [None]
    being its error; the text of [json.MarshalIndent] for a value; and
    the integer that [fmt.Sscanf] with the verb d leaves in the variable,
    which stays 0 when the scan fails. *)
Variable Unmarshal : string -> option json.Value.
Variable MarshalIndent : json.Value -> string.
Variable Sscanf_d : string -> Z.

Definition parseJSONPath (path : string) : list pathSegment :=
  map (fun part =>
         match strings.CutByte "["%char part with
         | Some (key, indexStr) =>
             {| key := key; index := Sscanf_d (strings.TrimSuffix indexStr "]") |}
         | None => {| key := part; index := (-1) |}
         end)
    (strings.SplitByte "."%char path).

(** The errors of the walk. *)
Inductive PathError :=
| NotJSON
| KeyNotFound (key : string)
| InvalidIndex (index : Z)
| CannotTraverse (current : json.Value).

Definition element (arr : list json.Value) (i : Z) : json.Value + PathError :=
  if (0 <=? i)%Z && (i <? Z.of_nat (List.length arr))%Z
  then match nth_error arr (Z.to_nat i) with
       | Some v => inl v
       | None => inr (InvalidIndex i)
       end
  else inr (InvalidIndex i).

(** One turn of the loop over the segments. *)
Definition step (seg : pathSegment) (current : json.Value)
  : json.Value + PathError :=
  match current with
  | json.JObject m =>
      match json.lookup (key seg) m with
      | Some val =>
          if (index seg >=? 0)%Z then
            match val with
            | json.JArray arr => element arr (index seg)
            | _ => inr (InvalidIndex (index seg))
            end
          else inl val
      | None => inr (KeyNotFound (key seg))
      end
  | json.JArray arr => element arr (index seg)
  | _ => inr (CannotTraverse current)
  end.

Fixpoint walk (segments : list pathSegment) (current : json.Value)
  : json.Value + PathError :=
  match segments with
  | [] => inl current
  | seg :: rest =>
      match step seg current with
      | inl next => walk rest next
      | inr e => inr e
      end
  end.

(** The result as a string. *)
Definition render (v : json.Value) : string :=
  match v with
  | json.JString s => s
  | json.JNull => "null"
  | _ => MarshalIndent v
  end.

Definition extractJSONPath (data path : string) : string + PathError :=
  match Unmarshal data with
  | None => inr NotJSON
  | Some obj =>
      match walk (parseJSONPath path) obj with
      | inl v => inl (render v)
      | inr e => inr e
      end
  end.

(** [extractJSONPath] as [HTTPExecutor.Execute] uses it, which looks at
    the error only to see whether there is one. *)
Definition extracted (data path : string) : option string :=
  match extractJSONPath data path with
  | inl s => Some s
  | inr _ => None
  end.

End JSONPath.

(** The placeholder of the argument [k]. *)
Definition placeholder (k : string) : string := "{{" ++ k ++ "}}".

(** [expandArgs], given how [%v] prints a value and the entries of the
    arguments in the order in which the range over the map visits them,
    which Go leaves open. *)
Fixpoint expandArgs (Sprint : json.Value -> string) (template : string)
  (visited : list (string * json.Value)) : string :=
  match visited with
  | [] => template
  | (k, v) :: rest =>
      expandArgs Sprint (strings.ReplaceAll template (placeholder k) (Sprint v)) rest
  end.

Section Environment.

(** The operating system and the network, as the executors see them: the
    run of the command and the exchange that a tool and its arguments give
    rise to.  Building the command line and the request from the templates
    ([expandArgs], the environment) happens on the way in and is part of
    these. *)
Variable cmd_Run : config.Tool -> ArgMap -> CmdOutcome.
Variable client_Do : config.Tool -> ArgMap -> HTTPOutcome.

(** [extractJSONPath body path], with its error as [None]. *)
Variable extractJSONPath : string -> string -> option string.

(** [Executor.Execute]. *)
Definition Execute (tool : config.Tool) (args : ArgMap) : Result :=
  let run := cmd_Run tool args in
  (* Combine stdout and stderr *)
  let output := stdout run in
  let output :=
    if (0 <? String.length (stderr run))%nat
    then (if negb (String.eqb output "")
          then output ++ json.bytes [10] else output) ++ stderr run
    else output in
  let out := strings.TrimSpace output in
  match run_err run with
  | None => {| Output := out; ExitCode := 0; Error := None |}
  | Some (ExitError code desc) =>
      {| Output := out; ExitCode := code; Error := Some desc |}
  | Some (OtherRunError desc) =>
      {| Output := out; ExitCode := (-1); Error := Some desc |}
  end.

(** [HTTPExecutor.Execute]. *)
Definition HTTPExecute (tool : config.Tool) (args : ArgMap) : Result :=
  match client_Do tool args with
  | NewRequestFailed err =>
      {| Output := "Failed to create request: " ++ err;
         ExitCode := (-1); Error := Some err |}
  | DoFailed err =>
      {| Output := "Request failed: " ++ err;
         ExitCode := (-1); Error := Some err |}
  | ReadAllFailed err =>
      {| Output := "Failed to read response: " ++ err;
         ExitCode := (-1); Error := Some err |}
  | Responded StatusCode body =>
      let output := body in
      (* Extract JSON path if specified *)
      let output :=
        if negb (String.eqb (config.ExtractJSON (config.HTTP tool)) "")
           && (0 <? String.length body)%nat
        then match extractJSONPath body (config.ExtractJSON (config.HTTP tool)) with
             | Some extracted => extracted
             | None => output
             end
        else output in
      (* Determine exit code based on status *)
      let exitCode := if (StatusCode >=? 400)%Z then 1%Z else 0%Z in
      {| Output := strings.TrimSpace output; ExitCode := exitCode;
         Error := None |}
  end.

End Environment.

End executor.

(** ** internal/tunnel *)

Module tunnel.

Definition error : Type := string.

Record MCPRequest := {
  req_JSONRPC : string;
  req_ID : json.Value;
  req_Method : string;
  req_Params : json.RawMessage
}.

Record MCPError := {
  Code : Z;
  Message : string;
  Data : json.Value
}.

Record MCPResponse := {
  resp_JSONRPC : string;
  resp_ID : json.Value;
  Result : json.Value;
  Error : option MCPError
}.

(** [MCPHandler]: the one method of the interface. *)
Definition MCPHandler : Type :=
  MCPRequest -> option MCPResponse * option error.

Record TunnelMessage := {
  msg_Type : string;
  TunnelID : string;
  TunnelURL : string;
  RequestID : string;
  Payload : json.RawMessage;
  msg_Error : string;
  ClientIP : string
}.

(** A [TunnelMessage] literal that sets only the type, the request id and
    the payload. *)
Definition frame (type requestID : string) (payload : json.RawMessage)
  : TunnelMessage :=
  {| msg_Type := type; TunnelID := ""; TunnelURL := ""; RequestID := requestID;
     Payload := payload; msg_Error := ""; ClientIP := "" |}.

(** *** Decoding a request: [json.Unmarshal(msg.Payload, &req)] *)

Definition zero_request : MCPRequest :=
  {| req_JSONRPC := ""; req_ID := json.JNull; req_Method := "";
     req_Params := None |}.

(** One member of the object, stored into the struct.  The flag records
    that no member so far had a value of the wrong kind for its field, or
    an id with a number that has no float64: the decoder goes on after
    such a member and reports it at the end.  A null leaves a string field
    as it is. *)
Definition store_request_member (acc : MCPRequest * bool)
  (kv : string * json.Value) : MCPRequest * bool :=
  let '(r, ok) := acc in
  let '(k, v) := kv in
  if json.selects k "jsonrpc" then
    match v with
    | json.JString s =>
        ({| req_JSONRPC := s; req_ID := req_ID r; req_Method := req_Method r;
            req_Params := req_Params r |}, ok)
    | json.JNull => (r, ok)
    | _ => (r, false)
    end
  else if json.selects k "id" then
    match json.to_interface v with
    | Some id =>
        ({| req_JSONRPC := req_JSONRPC r; req_ID := id;
            req_Method := req_Method r; req_Params := req_Params r |}, ok)
    | None => (r, false)
    end
  else if json.selects k "method" then
    match v with
    | json.JString s =>
        ({| req_JSONRPC := req_JSONRPC r; req_ID := req_ID r; req_Method := s;
            req_Params := req_Params r |}, ok)
    | json.JNull => (r, ok)
    | _ => (r, false)
    end
  else if json.selects k "params" then
    ({| req_JSONRPC := req_JSONRPC r; req_ID := req_ID r;
        req_Method := req_Method r; req_Params := Some v |}, ok)
  else (r, ok).

(** [None] is the error of [json.Unmarshal]: no input at all, a value
    that is neither an object nor null, a member of the wrong kind, or a
    number in the id that is out of the range of float64. *)
Definition unmarshalRequest (data : json.RawMessage) : option MCPRequest :=
  match data with
  | None => None
  | Some json.JNull => Some zero_request
  | Some (json.JObject members) =>
      let '(r, ok) := fold_left store_request_member members (zero_request, true) in
      if ok then Some r else None
  | Some _ => None
  end.

(** *** Encoding a response: [json.Marshal(resp)] *)

Definition omitempty (name : string) (v : json.Value)
  : list (string * json.Value) :=
  match v with
  | json.JNull => []
  | _ => [(name, v)]
  end.

Definition marshalError (e : MCPError) : json.Value :=
  json.JObject
    ([("code", json.int_lit (Code e)); ("message", json.JString (Message e))]
       ++ omitempty "data" (Data e)).

Definition marshalResponse (resp : option MCPResponse) : json.Value :=
  match resp with
  | None => json.JNull
  | Some r =>
      json.JObject
        ([("jsonrpc", json.JString (resp_JSONRPC r))]
           ++ omitempty "id" (resp_ID r)
           ++ omitempty "result" (Result r)
           ++ match Error r with
              | Some e => [("error", marshalError e)]
              | None => []
              end)
  end.

(** *** The multiplexer: one request envelope *)

(** [sendResponse]: the frame written to the connection (under the write
    mutex; the result of the write is dropped). *)
Definition sendResponse (requestID : string) (resp : option MCPResponse)
  : TunnelMessage :=
  frame "response" requestID (Some (marshalResponse resp)).

Definition error_response (code : Z) (message : string) : MCPResponse :=
  {| resp_JSONRPC := "2.0"; resp_ID := json.JNull; Result := json.JNull;
     Error := Some {| Code := code; Message := message; Data := json.JNull |} |}.

Definition sendError (requestID : string) (code : Z) (message : string)
  : TunnelMessage :=
  sendResponse requestID (Some (error_response code message)).

(** [handleRequest]: the frame with which one request envelope is
    answered. *)
Definition handleRequest (handler : MCPHandler) (msg : TunnelMessage)
  : TunnelMessage :=
  match unmarshalRequest (Payload msg) with
  | None => sendError (RequestID msg) (-32700) "Parse error"
  | Some req =>
      match handler req with
      | (_, Some err) => sendError (RequestID msg) (-32603) err
      | (resp, None) => sendResponse (RequestID msg) resp
      end
  end.

Definition sendPong : TunnelMessage := frame "pong" "" None.

(** *** The session *)

Inductive ConnState := ConnNil | ConnOpen | ConnClosed.

Inductive Goroutine := go_handleMessages | go_keepalive.

(** The client: its connection, the public URL, whether [done] is closed,
    whether a client-connected callback is set, and the goroutines that
    [Connect] has started. *)
Record Client := {
  relayURL : string;
  handler : MCPHandler;
  conn : ConnState;
  tunnelURL : string;
  done : bool;
  version : string;
  toolCount : Z;
  onClientConnected : bool;
  started : list Goroutine
}.

Definition NewClient (relayURL : string) (handler : MCPHandler)
  (version : string) (toolCount : Z) : Client :=
  {| relayURL := relayURL; handler := handler; conn := ConnNil;
     tunnelURL := ""; done := false; version := version;
     toolCount := toolCount; onClientConnected := false; started := [] |}.

Definition OnClientConnected (c : Client) : Client :=
  {| relayURL := relayURL c; handler := handler c; conn := conn c;
     tunnelURL := tunnelURL c; done := done c; version := version c;
     toolCount := toolCount c; onClientConnected := true;
     started := started c |}.

Definition with_conn (c : Client) (st : ConnState) : Client :=
  {| relayURL := relayURL c; handler := handler c; conn := st;
     tunnelURL := tunnelURL c; done := done c; version := version c;
     toolCount := toolCount c; onClientConnected := onClientConnected c;
     started := started c |}.

Definition close_done (c : Client) : Client :=
  {| relayURL := relayURL c; handler := handler c; conn := conn c;
     tunnelURL := tunnelURL c; done := true; version := version c;
     toolCount := toolCount c; onClientConnected := onClientConnected c;
     started := started c |}.

(** What the dial returns: a connection, or an error together with the
    status of the HTTP response when there was one. *)
Inductive DialResult :=
| DialOK
| DialFailed (status : option Z) (err : error).

(** An error of [ReadJSON]: a close frame of the peer with its code, or
    anything else (a malformed frame, an abrupt disconnect). *)
Inductive ReadError :=
| CloseError (code : Z) (text : string)
| OtherReadError (desc : string).

Definition read_error_desc (e : ReadError) : error :=
  match e with
  | CloseError _ text => text
  | OtherReadError desc => desc
  end.

Inductive ReadResult :=
| ReadOK (msg : TunnelMessage)
| ReadFailed (e : ReadError).

Definition StatusUpgradeRequired : Z := 426.
Definition CloseNormalClosure : Z := 1000.
Definition CloseGoingAway : Z := 1001.

Definition IsCloseError (e : ReadError) (codes : list Z) : bool :=
  match e with
  | CloseError code _ => existsb (Z.eqb code) codes
  | OtherReadError _ => false
  end.

(** [Connect], given what the dial and the first read return: the client
    afterwards, the URL and the error. *)
Definition Connect (c : Client) (dial : DialResult) (first : ReadResult)
  : Client * (string * option error) :=
  match dial with
  | DialFailed status err =>
      match status with
      | Some code =>
          if Z.eqb code StatusUpgradeRequired
          then (c, ("", Some "version outdated - run: gantz update"))
          else (c, ("", Some ("dial relay: " ++ err)))
      | None => (c, ("", Some ("dial relay: " ++ err)))
      end
  | DialOK =>
      let c := with_conn c ConnOpen in
      match first with
      | ReadFailed e =>
          (with_conn c ConnClosed,
           ("", Some ("read registration: " ++ read_error_desc e)))
      | ReadOK msg =>
          if negb (String.eqb (msg_Type msg) "registered")
          then (with_conn c ConnClosed,
                ("", Some ("unexpected message type: " ++ msg_Type msg)))
          else
            let c :=
              {| relayURL := relayURL c; handler := handler c; conn := conn c;
                 tunnelURL := TunnelURL msg; done := done c;
                 version := version c; toolCount := toolCount c;
                 onClientConnected := onClientConnected c;
                 started := (started c ++ [go_handleMessages; go_keepalive])%list |} in
            (c, (tunnelURL c, None))
      end
  end.

(** What the read loop does besides reading: it starts a handler for a
    request envelope, writes a frame, calls the client-connected callback,
    prints a line. *)
Inductive Effect :=
| Spawned (msg : TunnelMessage)
| Wrote (f : TunnelMessage)
| Called (clientIP : string)
| Printed (line : string).

(** The body of the switch of [handleMessages] for one envelope. *)
Definition on_message (c : Client) (msg : TunnelMessage) : list Effect :=
  if String.eqb (msg_Type msg) "request" then [Spawned msg]
  else if String.eqb (msg_Type msg) "ping" then [Wrote sendPong]
  else if String.eqb (msg_Type msg) "client_connected" then
    if onClientConnected c && negb (String.eqb (ClientIP msg) "")
    then [Called (ClientIP msg)] else []
  else [].

(** [handleMessages] over what the successive reads return.  The loop ends
    at the first read that fails, and [done] is closed then (the deferred
    [close]); while every read so far gave an envelope the loop is still
    waiting in the next read and [done] is as it was. *)
Fixpoint handleMessages (c : Client) (reads : list ReadResult)
  : Client * list Effect :=
  match reads with
  | [] => (c, [])
  | ReadFailed e :: _ =>
      if IsCloseError e [CloseNormalClosure; CloseGoingAway]
      then (close_done c, [])
      else
        (close_done c,
         [Printed ("Error reading message: " ++ read_error_desc e ++ json.bytes [10])])
  | ReadOK msg :: rest =>
      let '(c', effects) := handleMessages c rest in
      (c', (on_message c msg ++ effects)%list)
  end.

(** [Wait]: [None] while the call is blocked on [done], and the error it
    returns once [done] is closed. *)
Definition Wait (c : Client) : option (option error) :=
  if done c then Some None else None.

(** [Close]. *)
Definition Close (c : Client) : Client :=
  match conn c with
  | ConnNil => c
  | _ => with_conn c ConnClosed
  end.

Definition URL (c : Client) : string := tunnelURL c.

(** What one round of the select in [keepalive] chose: the ticker, with
    the error of the write that followed, or the closed [done]. *)
Inductive Wakeup :=
| Tick (write_err : option error)
| DoneClosed.

(** [keepalive] over the rounds of its loop: the frames it handed to
    [WriteJSON], and whether it has returned.  With no round left the loop
    is waiting in the select. *)
Fixpoint keepalive (rounds : list Wakeup) : list TunnelMessage * bool :=
  match rounds with
  | [] => ([], false)
  | DoneClosed :: _ => ([], true)
  | Tick None :: rest =>
      let '(frames, returned) := keepalive rest in
      (frame "pong" "" None :: frames, returned)
  | Tick (Some _) :: _ => ([frame "pong" "" None], true)
  end.

End tunnel.

(** ** internal/mcp *)

Module mcp.

Import json.

(** The server holds the configuration it answers from.  Its two
    executors hold no state of their own. *)
Record Server := { server_config : config.Config }.

Definition NewServer (cfg : config.Config) : Server :=
  {| server_config := cfg |}.

(** Modelled from the spec: [UpdateConfig], which [reloadConfig] calls and
    whose body is not among the sources.  The spec's registry swap is
    wholesale: "replace(new Registry)" makes the new registry the one every
    later "current()" returns, with no merge. *)
Definition UpdateConfig (s : Server) (cfg : config.Config) : Server :=
  {| server_config := cfg |}.

Record toolCallParams := {
  Name : string;
  Arguments : executor.ArgMap
}.

Definition zero_params : toolCallParams :=
  {| Name := ""; Arguments := None |}.

(** One member of the params object, stored into the struct (see
    [tunnel.store_request_member]).  An object is decoded into the map,
    which is made first when it is nil; a null makes the map nil; an
    argument with a number that has no float64 is an error. *)
Definition store_params_member (acc : toolCallParams * bool)
  (kv : string * Value) : toolCallParams * bool :=
  let '(p, ok) := acc in
  let '(k, v) := kv in
  if selects k "name" then
    match v with
    | JString s => ({| Name := s; Arguments := Arguments p |}, ok)
    | JNull => (p, ok)
    | _ => (p, false)
    end
  else if selects k "arguments" then
    match v with
    | JObject members =>
        let m := match Arguments p with Some m => m | None => [] end in
        match store_members members m with
        | Some m => ({| Name := Name p; Arguments := Some m |}, ok)
        | None => (p, false)
        end
    | JNull => ({| Name := Name p; Arguments := None |}, ok)
    | _ => (p, false)
    end
  else (p, ok).

(** [json.Unmarshal(req.Params, &params)], [None] being its error. *)
Definition unmarshalParams (data : RawMessage) : option toolCallParams :=
  match data with
  | None => None
  | Some JNull => Some zero_params
  | Some (JObject members) =>
      let '(p, ok) := fold_left store_params_member members (zero_params, true) in
      if ok then Some p else None
  | Some _ => None
  end.

Definition result_response (id : Value) (result : Value)
  : option tunnel.MCPResponse * option tunnel.error :=
  (Some {| tunnel.resp_JSONRPC := "2.0"; tunnel.resp_ID := id;
           tunnel.Result := result; tunnel.Error := None |}, None).

Definition error_response (id : Value) (code : Z) (message : string)
  : option tunnel.MCPResponse * option tunnel.error :=
  (Some {| tunnel.resp_JSONRPC := "2.0"; tunnel.resp_ID := id;
           tunnel.Result := JNull;
           tunnel.Error :=
             Some {| tunnel.Code := code; tunnel.Message := message;
                     tunnel.Data := JNull |} |}, None).

Definition handleInitialize (s : Server) (req : tunnel.MCPRequest) :=
  result_response (tunnel.req_ID req)
    (JObject
       [("protocolVersion", JString "2024-11-05");
        ("serverInfo",
         JObject [("name", JString (config.Name (server_config s)));
                  ("version", JString (config.Version (server_config s)))]);
        ("capabilities", JObject [("tools", JObject [])])]).

(** The schema entry of one parameter. *)
Definition property (param : config.Param) : Value :=
  let prop :=
    [("type", JString (config.param_Type param));
     ("description", JString (config.param_Description param))] in
  JObject
    (if negb (String.eqb (config.param_Default param) "")
     then map_set "default" (JString (config.param_Default param)) prop
     else prop).

(** The inner loop of [handleToolsList]: the properties map and the
    required names after the parameters seen so far. *)
Fixpoint schema_loop (params : list config.Param)
  (properties : list (string * Value)) (required : list string)
  : list (string * Value) * list string :=
  match params with
  | [] => (properties, required)
  | param :: rest =>
      let properties := map_set (config.param_Name param) (property param) properties in
      let required :=
        if config.param_Required param
        then (required ++ [config.param_Name param])%list else required in
      schema_loop rest properties required
  end.

Definition inputSchema (tool : config.Tool) : Value :=
  let '(properties, required) := schema_loop (config.Parameters tool) [] [] in
  let schema := [("type", JString "object"); ("properties", JObject properties)] in
  JObject
    (if (0 <? List.length required)%nat
     then map_set "required" (JArray (map JString required)) schema
     else schema).

Definition tool_entry (tool : config.Tool) : Value :=
  JObject
    [("name", JString (config.tool_Name tool));
     ("description", JString (config.tool_Description tool));
     ("inputSchema", inputSchema tool)].

Definition handleToolsList (s : Server) (req : tunnel.MCPRequest) :=
  let tools := map tool_entry (config.Tools (server_config s)) in
  result_response (tunnel.req_ID req) (JObject [("tools", JArray tools)]).

Definition handlePing (s : Server) (req : tunnel.MCPRequest) :=
  result_response (tunnel.req_ID req) (JObject []).

Section Environment.

Variable cmd_Run : config.Tool -> executor.ArgMap -> executor.CmdOutcome.
Variable client_Do : config.Tool -> executor.ArgMap -> executor.HTTPOutcome.
Variable extractJSONPath : string -> string -> option string.

(** The call of the executor that fits the tool. *)
Definition invoke (tool : config.Tool) (args : executor.ArgMap)
  : executor.Result :=
  if config.IsHTTP tool
  then executor.HTTPExecute client_Do extractJSONPath tool args
  else executor.Execute cmd_Run tool args.

(** The response content built from a result. *)
Definition content (result : executor.Result) : Value :=
  match executor.Error result with
  | Some err =>
      if String.eqb (executor.Output result) ""
      then JArray [JObject [("type", JString "text");
                            ("text", JString ("Error: " ++ err))]]
      else JArray [JObject [("type", JString "text");
                            ("text", JString (executor.Output result))]]
  | None =>
      JArray [JObject [("type", JString "text");
                       ("text", JString (executor.Output result))]]
  end.

Definition handleToolsCall (s : Server) (req : tunnel.MCPRequest) :=
  match unmarshalParams (tunnel.req_Params req) with
  | None => error_response (tunnel.req_ID req) (-32602) "Invalid params"
  | Some params =>
      (* Find tool *)
      match config.GetTool (server_config s) (Name params) with
      | None =>
          error_response (tunnel.req_ID req) (-32602)
            ("Tool not found: " ++ Name params)
      | Some tool =>
          (* Execute tool *)
          let result := invoke tool (Arguments params) in
          result_response (tunnel.req_ID req)
            (JObject
               [("content", content result);
                ("isError", JBool (negb (Z.eqb (executor.ExitCode result) 0)))])
      end
  end.

(** [HandleRequest] (implements [tunnel.MCPHandler]). *)
Definition HandleRequest (s : Server) : tunnel.MCPHandler :=
  fun req =>
    if String.eqb (tunnel.req_Method req) "initialize" then handleInitialize s req
    else if String.eqb (tunnel.req_Method req) "tools/list" then handleToolsList s req
    else if String.eqb (tunnel.req_Method req) "tools/call" then handleToolsCall s req
    else if String.eqb (tunnel.req_Method req) "ping" then handlePing s req
    else
      error_response (tunnel.req_ID req) (-32601)
        ("Method not found: " ++ tunnel.req_Method req).

(** The hosting process over time: requests reach the dispatcher and the
    configuration watcher, after a load that succeeded, replaces the
    registry, one after the other. *)
Inductive Event :=
| Request (req : tunnel.MCPRequest)
| Reload (cfg : config.Config).

(** The responses to the requests of a run, in order, and the server at
    its end. *)
Fixpoint serve (s : Server) (events : list Event)
  : list (option tunnel.MCPResponse * option tunnel.error) * Server :=
  match events with
  | [] => ([], s)
  | Request req :: rest =>
      let '(out, s') := serve s rest in
      (HandleRequest s req :: out, s')
  | Reload cfg :: rest => serve (UpdateConfig s cfg) rest
  end.

(** What the local HTTP server writes back: the status, the content type
    and the body, which is a line of text from [http.Error] or the value
    the encoder wrote. *)
Inductive ReplyBody :=
| TextLine (text : string)
| JSONLine (v : Value).

Record HTTPReply := {
  reply_Status : Z;
  reply_ContentType : string;
  reply_Body : ReplyBody
}.

Definition http_Error (message : string) (code : Z) : HTTPReply :=
  {| reply_Status := code; reply_ContentType := "text/plain; charset=utf-8";
     reply_Body := TextLine message |}.

(** [handleHTTP], the JSON-RPC endpoint of the local mode, given the
    method of the HTTP request and its body.  The body is what the decoder
    reads from it: the first JSON value, [None] when it holds none that is
    well formed. *)
Definition handleHTTP (s : Server) (method : string) (body : RawMessage)
  : HTTPReply :=
  if negb (String.eqb method "POST")
  then http_Error "Method not allowed" 405
  else
    match tunnel.unmarshalRequest body with
    | None => http_Error "Invalid JSON" 400
    | Some req =>
        let '(resp, _) := HandleRequest s req in
        {| reply_Status := 200; reply_ContentType := "application/json";
           reply_Body := JSONLine (tunnel.marshalResponse resp) |}
    end.

End Environment.

End mcp.

(** ** Observations on responses and frames *)

Module observe.

Import json.

(** The member [name] of the payload of a frame. *)
Definition payload_member (name : string) (f : tunnel.TunnelMessage)
  : option Value :=
  match tunnel.Payload f with
  | Some (JObject members) => lookup name members
  | _ => None
  end.

(** The member [name] of the result of a response. *)
Definition result_member (name : string) (resp : tunnel.MCPResponse)
  : option Value :=
  match tunnel.Result resp with
  | JObject members => lookup name members
  | _ => None
  end.

(** The code of the RPC error of a response. *)
Definition error_code (resp : tunnel.MCPResponse) : option Z :=
  option_map tunnel.Code (tunnel.Error resp).

(** The outcome of a handler is the RPC error [code], [message] under
    the id [id]: a response, no outer error, no result. *)
Definition is_rpc_error (out : option tunnel.MCPResponse * option tunnel.error)
  (id : Value) (code : Z) (message : string) : Prop :=
  out =
    (Some {| tunnel.resp_JSONRPC := "2.0"; tunnel.resp_ID := id;
             tunnel.Result := JNull;
             tunnel.Error :=
               Some {| tunnel.Code := code; tunnel.Message := message;
                       tunnel.Data := JNull |} |}, None).

(** The [id] member a response shows on the wire: a nil id is omitted. *)
Definition wire_id (id : Value) : option Value :=
  match id with
  | JNull => None
  | _ => Some id
  end.

(** The member [name] of a value that is an object. *)
Definition member (name : string) (v : Value) : option Value :=
  match v with
  | JObject members => lookup name members
  | _ => None
  end.




(** A schema entry shows a parameter: its type, its description and, only
    when it is not empty, its default. *)
Definition shows_parameter (param : config.Param) (prop : Value) : Prop :=
  member "type" prop = Some (JString (config.param_Type param))
  /\ member "description" prop = Some (JString (config.param_Description param))
  /\ member "default" prop
     = if String.eqb (config.param_Default param) ""
       then None else Some (JString (config.param_Default param)).

(** The data model's invariant on an action: no two of its parameters
    share a name. *)
Definition unique_parameter_names (tool : config.Tool) : Prop :=
  NoDup (map config.param_Name (config.Parameters tool)).

(** The last parameter declared under [name], if any. *)
Fixpoint last_declared (name : string) (params : list config.Param)
  : option config.Param :=
  match params with
  | [] => None
  | p :: rest =>
      match last_declared name rest with
      | Some q => Some q
      | None => if String.eqb name (config.param_Name p) then Some p else None
      end
  end.

(** The names of the parameters declared required, in their order. *)
Definition required_names (params : list config.Param) : list string :=
  map config.param_Name (filter config.param_Required params).

(** An entry of a listing shows a tool: its name, its description, and
    an input schema of type object whose properties are a map from the
    names of the parameters, each to the entry of the last parameter
    declared under the name, and whose [required] member lists the names
    of the parameters declared required, or is absent when there is none. *)
Definition shows_tool (tool : config.Tool) (entry : Value) : Prop :=
  member "name" entry = Some (JString (config.tool_Name tool))
  /\ member "description" entry = Some (JString (config.tool_Description tool))
  /\ exists schema properties,
      member "inputSchema" entry = Some schema
      /\ member "type" schema = Some (JString "object")
      /\ member "properties" schema = Some (JObject properties)
      /\ member "required" schema
         = match required_names (config.Parameters tool) with
           | [] => None
           | names => Some (JArray (map JString names))
           end
      /\ NoDup (keys properties)
      /\ forall name,
          match last_declared name (config.Parameters tool) with
          | Some param =>
              exists prop,
                lookup name properties = Some prop /\ shows_parameter param prop
          | None => lookup name properties = None
          end.

(** The properties that the answer to tools/list shows for its entry at
    index [i]. *)
Definition listed_properties
  (out : option tunnel.MCPResponse * option tunnel.error) (i : nat)
  : option Value :=
  match out with
  | (Some resp, _) =>
      match result_member "tools" resp with
      | Some (JArray entries) =>
          match nth_error entries i with
          | Some entry =>
              match member "inputSchema" entry with
              | Some schema => member "properties" schema
              | None => None
              end
          | None => None
          end
      | _ => None
      end
  | _ => None
  end.

(** A text of white space only: white space runes, one after the other. *)
Inductive only_space : string -> Prop :=
| only_space_empty : only_space ""
| only_space_rune (rune rest : string) :
    In rune strings.space_runes -> only_space rest -> only_space (rune ++ rest).

(** The spec's wording of the output of a process: stdout followed by
    stderr, with a newline between them when neither is empty. *)
Definition stdout_then_stderr (out err : string) : string :=
  if negb (String.eqb out "") && negb (String.eqb err "")
  then out ++ bytes [10] ++ err
  else out ++ err.

(** The methods of the dispatcher's table. *)
Definition known_method (m : string) : bool :=
  String.eqb m "initialize" || String.eqb m "tools/list"
  || String.eqb m "tools/call" || String.eqb m "ping".

(** The envelopes for which the read loop started a handler, the frames
    it wrote and the client addresses it reported, in order. *)
Definition spawned (effects : list tunnel.Effect) : list tunnel.TunnelMessage :=
  flat_map (fun e => match e with tunnel.Spawned m => [m] | _ => [] end) effects.

Definition written (effects : list tunnel.Effect) : list tunnel.TunnelMessage :=
  flat_map (fun e => match e with tunnel.Wrote f => [f] | _ => [] end) effects.

Definition called (effects : list tunnel.Effect) : list string :=
  flat_map (fun e => match e with tunnel.Called ip => [ip] | _ => [] end) effects.

Definition has_type (type : string) (msg : tunnel.TunnelMessage) : bool :=
  String.eqb (tunnel.msg_Type msg) type.

Definition reports_client (msg : tunnel.TunnelMessage) : bool :=
  has_type "client_connected" msg && negb (String.eqb (tunnel.ClientIP msg) "").

(** The tool and the arguments with which a request reaches an executor:
    those of a tools/call whose params decode and whose name the registry
    has. *)
Definition invocation (s : mcp.Server) (req : tunnel.MCPRequest)
  : option (config.Tool * executor.ArgMap) :=
  if String.eqb (tunnel.req_Method req) "tools/call" then
    match mcp.unmarshalParams (tunnel.req_Params req) with
    | Some params =>
        match config.GetTool (mcp.server_config s) (mcp.Name params) with
        | Some tool => Some (tool, mcp.Arguments params)
        | None => None
        end
    | None => None
    end
  else None.

(** The text block [{"type":"text","text":t}]. *)
Definition text_block (t : string) : Value :=
  JObject [("type", JString "text"); ("text", JString t)].

(** The names under which an answer to tools/list shows its tools. *)
Definition entry_names (entries : list Value) : list string :=
  flat_map (fun e => match member "name" e with
                     | Some (JString n) => [n]
                     | _ => []
                     end) entries.

Definition listed_names (out : option tunnel.MCPResponse * option tunnel.error)
  : list string :=
  match out with
  | (Some resp, _) =>
      match result_member "tools" resp with
      | Some (JArray entries) => entry_names entries
      | _ => []
      end
  | _ => []
  end.

(** Is the string a plain key of a path, with no dot and no bracket? *)
Fixpoint plain_key (s : string) : bool :=
  match s with
  | EmptyString => true
  | String c rest =>
      negb (Ascii.eqb c "."%char) && negb (Ascii.eqb c "["%char) && plain_key rest
  end.

(** Has the string no opening brace? *)
Fixpoint no_brace (s : string) : bool :=
  match s with
  | EmptyString => true
  | String c rest => negb (Ascii.eqb c "{"%char) && no_brace rest
  end.

(** A tool as [Load] accepts it: it has a name, it is of exactly one
    kind, a script or an HTTP call, and each of its parameters has a
    name. *)
Definition acceptable_tool (tool : config.Tool) : Prop :=
  config.tool_Name tool <> ""
  /\ config.hasScript tool <> config.hasHTTP tool
  /\ Forall (fun p => config.param_Name p <> "") (config.Parameters tool).

(** A tool as [Load] hands it on: of exactly one kind, with a method when
    it is an HTTP call, and with a name and a type for each parameter. *)
Definition well_formed_tool (tool : config.Tool) : Prop :=
  config.tool_Name tool <> ""
  /\ config.IsHTTP tool = negb (config.hasScript tool)
  /\ (config.IsHTTP tool = true -> config.Method (config.HTTP tool) <> "")
  /\ Forall (fun p => config.param_Name p <> "" /\ config.param_Type p <> "")
       (config.Parameters tool).

(** A parameter as declared and as [Load] hands it on: the same but for
    the type, which is [string] when none is declared. *)
Definition same_parameter (p q : config.Param) : Prop :=
  config.param_Name q = config.param_Name p
  /\ config.param_Type q
     = (if String.eqb (config.param_Type p) "" then "string"
        else config.param_Type p)
  /\ config.param_Description q = config.param_Description p
  /\ config.param_Required q = config.param_Required p
  /\ config.param_Default q = config.param_Default p.

(** A tool as declared and as [Load] hands it on: the same but for the
    method of an HTTP call, which is [GET] when none is declared, and for
    the types of the parameters. *)
Definition same_declaration (a b : config.Tool) : Prop :=
  config.tool_Name b = config.tool_Name a
  /\ config.tool_Description b = config.tool_Description a
  /\ config.Script b = config.Script a
  /\ config.Environment b = config.Environment a
  /\ config.Method (config.HTTP b)
     = (if config.hasHTTP a && String.eqb (config.Method (config.HTTP a)) ""
        then "GET" else config.Method (config.HTTP a))
  /\ config.URL (config.HTTP b) = config.URL (config.HTTP a)
  /\ config.Headers (config.HTTP b) = config.Headers (config.HTTP a)
  /\ config.Body (config.HTTP b) = config.Body (config.HTTP a)
  /\ config.http_Timeout (config.HTTP b) = config.http_Timeout (config.HTTP a)
  /\ config.ExtractJSON (config.HTTP b) = config.ExtractJSON (config.HTTP a)
  /\ Forall2 same_parameter (config.Parameters a) (config.Parameters b).

End observe.

(** ** A registry and an environment to evaluate on *)

Module sample.

Import json.

Definition no_script : config.ScriptConfig :=
  {| config.Command := ""; config.Args := []; config.Shell := "";
     config.WorkingDir := ""; config.script_Timeout := "" |}.

Definition no_http : config.HTTPConfig :=
  {| config.Method := ""; config.URL := ""; config.Headers := [];
     config.Body := ""; config.http_Timeout := ""; config.ExtractJSON := "" |}.

(** Three tools after the sample configuration that [gantz init] writes:
    its two shell tools and its HTTP example. *)
Definition hello : config.Tool :=
  {| config.tool_Name := "hello";
     config.tool_Description := "Say hello to someone";
     config.Parameters :=
       [ {| config.param_Name := "name"; config.param_Type := "string";
            config.param_Description := "Name of the person to greet";
            config.param_Required := true; config.param_Default := "" |} ];
     config.Script :=
       {| config.Command := ""; config.Args := [];
          config.Shell := "echo Hello, {{name}}!";
          config.WorkingDir := ""; config.script_Timeout := "" |};
     config.HTTP := no_http; config.Environment := [] |}.

Definition list_files : config.Tool :=
  {| config.tool_Name := "list_files";
     config.tool_Description := "List files in a directory";
     config.Parameters :=
       [ {| config.param_Name := "path"; config.param_Type := "string";
            config.param_Description := "Directory path to list";
            config.param_Required := false; config.param_Default := "." |} ];
     config.Script :=
       {| config.Command := ""; config.Args := [];
          config.Shell := "ls -la {{path}}";
          config.WorkingDir := ""; config.script_Timeout := "" |};
     config.HTTP := no_http; config.Environment := [] |}.

Definition get_weather : config.Tool :=
  {| config.tool_Name := "get_weather";
     config.tool_Description := "Get weather for a city";
     config.Parameters :=
       [ {| config.param_Name := "city"; config.param_Type := "string";
            config.param_Description := ""; config.param_Required := true;
            config.param_Default := "" |} ];
     config.Script := no_script;
     config.HTTP :=
       {| config.Method := "GET";
          config.URL := "https://api.example.com/weather?city={{city}}";
          config.Headers := []; config.Body := ""; config.http_Timeout := "";
          config.ExtractJSON := "" |};
     config.Environment := [] |}.

(** A tool that declares the name [n] for two parameters. *)
Definition count : config.Tool :=
  {| config.tool_Name := "count";
     config.tool_Description := "Count up to a number";
     config.Parameters :=
       [ {| config.param_Name := "n"; config.param_Type := "string";
            config.param_Description := "first"; config.param_Required := false;
            config.param_Default := "" |};
         {| config.param_Name := "n"; config.param_Type := "number";
            config.param_Description := "second"; config.param_Required := false;
            config.param_Default := "" |} ];
     config.Script :=
       {| config.Command := "seq"; config.Args := ["{{n}}"];
          config.Shell := ""; config.WorkingDir := ""; config.script_Timeout := "" |};
     config.HTTP := no_http; config.Environment := [] |}.

Definition registry (tools : list config.Tool) : config.Config :=
  {| config.Name := "my-tools"; config.Description := "";
     config.Version := "1.0.0"; config.Server := {| config.Port := 3000 |};
     config.Tools := tools |}.

(** A machine on which every command prints a greeting and a complaint
    and exits with status 3. *)
Definition cmd_Run (tool : config.Tool) (args : executor.ArgMap)
  : executor.CmdOutcome :=
  {| executor.stdout := "Hello, World!" ++ bytes [10];
     executor.stderr := "warning" ++ bytes [10];
     executor.run_err := Some (executor.ExitError 3 "exit status 3") |}.

(** A machine on which every command prints its greeting and succeeds. *)
Definition quiet_Run (tool : config.Tool) (args : executor.ArgMap)
  : executor.CmdOutcome :=
  {| executor.stdout := "Hello, World!" ++ bytes [10];
     executor.stderr := ""; executor.run_err := None |}.

(** A network on which every exchange ends in a 404. *)
Definition client_Do (tool : config.Tool) (args : executor.ArgMap)
  : executor.HTTPOutcome :=
  executor.Responded 404 "not found".

Definition extractJSONPath (body path : string) : option string := None.

Definition request (id : Value) (method : string) (params : RawMessage)
  : tunnel.MCPRequest :=
  {| tunnel.req_JSONRPC := "2.0"; tunnel.req_ID := id;
     tunnel.req_Method := method; tunnel.req_Params := params |}.

(** The text [{"name": <name>, "arguments": {<key>: <value>}}]. *)
Definition call_params (name key value : string) : RawMessage :=
  Some (JObject [("name", JString name);
                 ("arguments", JObject [(key, JString value)])]).

(** A handler that fails every call. *)
Definition failing_handler : tunnel.MCPHandler :=
  fun _ => (None, Some "boom").

Definition server (tools : list config.Tool) : mcp.Server :=
  mcp.NewServer (registry tools).

(** The dispatcher on this machine and network. *)
Definition dispatcher (s : mcp.Server) : tunnel.MCPHandler :=
  mcp.HandleRequest cmd_Run client_Do extractJSONPath s.

Definition client : tunnel.Client :=
  tunnel.NewClient "wss://relay.gantz.run" (dispatcher (server [hello]))
    "0.3.4" 1.

(** The payload [{"jsonrpc":"2.0","id":7,"method":"ping"}], a request. *)
Definition ping_payload : RawMessage :=
  Some (JObject [("jsonrpc", JString "2.0"); ("id", JNumber "7");
                 ("method", JString "ping")]).



(** The payload [{"jsonrpc":"2.0","id":7,"method":42}]: it carries an id,
    and does not decode, its method being a number. *)
Definition bad_method_payload : RawMessage :=
  Some (JObject [("jsonrpc", JString "2.0"); ("id", JNumber "7");
                 ("method", JNumber "42")]).

(** The frame [{"type":"error","error":"tunnel limit reached"}]. *)
Definition error_frame : tunnel.TunnelMessage :=
  {| tunnel.msg_Type := "error"; tunnel.TunnelID := ""; tunnel.TunnelURL := "";
     tunnel.RequestID := ""; tunnel.Payload := None;
     tunnel.msg_Error := "tunnel limit reached"; tunnel.ClientIP := "" |}.

(** A machine on which no command can be started. *)
Definition failing_Run (tool : config.Tool) (args : executor.ArgMap)
  : executor.CmdOutcome :=
  {| executor.stdout := ""; executor.stderr := "";
     executor.run_err := Some (executor.OtherRunError "exec: not found") |}.

(** A printing of values that prints a string as it is. *)
Definition Sprint (v : Value) : string :=
  match v with
  | JString s => s
  | _ => "?"
  end.

(** A file system with one file, which decodes to [get_weather] without
    its method and [hello], under no name. *)
Definition ReadFile (path : string) : config.ReadFileResult :=
  if String.eqb path "gantz.yaml" then config.FileData "tools: ..."
  else config.FileNotExist.

Definition ExpandEnv (text : string) : string := text.

Definition weather_without_method : config.Tool :=
  {| config.tool_Name := "get_weather";
     config.tool_Description := "Get weather for a city";
     config.Parameters :=
       [ {| config.param_Name := "city"; config.param_Type := "";
            config.param_Description := ""; config.param_Required := true;
            config.param_Default := "" |} ];
     config.Script := no_script;
     config.HTTP :=
       {| config.Method := "";
          config.URL := "https://api.example.com/weather?city={{city}}";
          config.Headers := []; config.Body := ""; config.http_Timeout := "";
          config.ExtractJSON := "data.temperature" |};
     config.Environment := [] |}.

(** The same tool as [Load] hands it on. *)
Definition get_weather_loaded : config.Tool :=
  {| config.tool_Name := "get_weather";
     config.tool_Description := "Get weather for a city";
     config.Parameters :=
       [ {| config.param_Name := "city"; config.param_Type := "string";
            config.param_Description := ""; config.param_Required := true;
            config.param_Default := "" |} ];
     config.Script := no_script;
     config.HTTP :=
       {| config.Method := "GET";
          config.URL := "https://api.example.com/weather?city={{city}}";
          config.Headers := []; config.Body := ""; config.http_Timeout := "";
          config.ExtractJSON := "data.temperature" |};
     config.Environment := [] |}.

Definition decoded (tools : list config.Tool) : config.Config :=
  {| config.Name := ""; config.Description := ""; config.Version := "";
     config.Server := {| config.Port := 0 |}; config.Tools := tools |}.

Definition yaml_Unmarshal (text : string) : config.Config + string :=
  inl (decoded [weather_without_method; hello]).

(** A tool without a name, and a decoder that finds it behind [hello]. *)
Definition nameless : config.Tool :=
  {| config.tool_Name := ""; config.tool_Description := "";
     config.Parameters := []; config.Script := no_script;
     config.HTTP := no_http; config.Environment := [] |}.

Definition yaml_Unmarshal_bad (text : string) : config.Config + string :=
  inl (decoded [hello; nameless; list_files]).

(** A decoder that finds the one tool [count]. *)
Definition yaml_Unmarshal_count (text : string) : config.Config + string :=
  inl (decoded [count]).

(** A decoder of JSON that finds a temperature in every body. *)
Definition Unmarshal (data : string) : option Value :=
  Some (JObject [("data", JObject [("temperature", JString "21")])]).

Definition MarshalIndent (v : Value) : string := "".

Definition Sscanf_d (text : string) : Z := 0.

End sample.

(** * Properties *)

Section Schema.

Import json observe.

(** *** The schema of tools/list *)

Lemma map_set_fresh (k : string) (v : Value) (m : list (string * Value)) :
  ~ In k (keys m) -> map_set k v m = (m ++ [(k, v)])%list.
Proof.
  induction m as [|[k' v'] m IH]; intros Hfresh; simpl; [reflexivity|].
  destruct (String.eqb_spec k k') as [->|Hne].
  - exfalso. apply Hfresh. now left.
  - f_equal. apply IH. intros Hin. apply Hfresh. now right.
Qed.

Lemma keys_app (m m' : list (string * Value)) :
  keys (m ++ m') = (keys m ++ keys m')%list.
Proof. unfold keys. apply map_app. Qed.

(** With names that are new and distinct, the loop appends one property
    per parameter and the names of the required ones. *)
Lemma schema_loop_unique (params : list config.Param) :
  forall properties required,
    NoDup (keys properties ++ map config.param_Name params) ->
    mcp.schema_loop params properties required
    = ((properties
          ++ map (fun p => (config.param_Name p, mcp.property p)) params)%list,
       (required ++ required_names params)%list).
Proof.
  induction params as [|param rest IH]; intros properties required Hnd; simpl.
  - now rewrite !app_nil_r.
  - assert (Hfresh : ~ In (config.param_Name param) (keys properties)).
    { intros Hin. apply NoDup_remove_2 in Hnd. apply Hnd.
      apply in_or_app. now left. }
    rewrite (map_set_fresh _ _ _ Hfresh).
    rewrite IH.
    + rewrite <- !app_assoc. simpl. unfold required_names. simpl.
      destruct (config.param_Required param); simpl;
        [now rewrite <- app_assoc | reflexivity].
    + rewrite keys_app, <- app_assoc. simpl.
      replace (keys properties ++ config.param_Name param :: map config.param_Name rest)%list
        with (keys properties ++ [config.param_Name param] ++ map config.param_Name rest)%list
        in Hnd by reflexivity.
      exact Hnd.
Qed.

Lemma lookup_declared (params : list config.Param) (param : config.Param) :
  NoDup (map config.param_Name params) ->
  In param params ->
  lookup (config.param_Name param)
    (map (fun p => (config.param_Name p, mcp.property p)) params)
  = Some (mcp.property param).
Proof.
  induction params as [|p rest IH]; intros Hnd Hin; [contradiction|].
  simpl. inversion Hnd as [|? ? Hfresh Hnd']; subst.
  destruct Hin as [->|Hin].
  - now rewrite String.eqb_refl.
  - destruct (String.eqb_spec (config.param_Name param) (config.param_Name p))
      as [Heq|Hne].
    + exfalso. apply Hfresh. rewrite <- Heq. now apply in_map.
    + now apply IH.
Qed.

Lemma property_members (param : config.Param) :
  member "type" (mcp.property param) = Some (JString (config.param_Type param))
  /\ member "description" (mcp.property param)
     = Some (JString (config.param_Description param))
  /\ member "default" (mcp.property param)
     = if String.eqb (config.param_Default param) ""
       then None else Some (JString (config.param_Default param)).
Proof.
  unfold mcp.property.
  destruct (String.eqb (config.param_Default param) ""); cbn; auto.
Qed.

Lemma lookup_map_set_eq (k : string) (v : Value) (m : list (string * Value)) :
  lookup k (map_set k v m) = Some v.
Proof.
  induction m as [|[k' v'] m IH]; simpl.
  - now rewrite String.eqb_refl.
  - destruct (String.eqb k k') eqn:Hk; simpl.
    + now rewrite String.eqb_refl.
    + now rewrite Hk.
Qed.

Lemma lookup_map_set_ne (k k' : string) (v : Value) (m : list (string * Value)) :
  k' <> k -> lookup k' (map_set k v m) = lookup k' m.
Proof.
  intros Hne. induction m as [|[k0 v0] m IH]; simpl.
  - destruct (String.eqb_spec k' k); [contradiction | reflexivity].
  - destruct (String.eqb_spec k k0) as [->|Hk]; simpl.
    + destruct (String.eqb_spec k' k0); [contradiction | reflexivity].
    + destruct (String.eqb k' k0); [reflexivity | exact IH].
Qed.

(** Whatever the names are, the properties map holds under each name the
    entry of the last parameter declared with it. *)
Lemma properties_last_declaration_wins (params : list config.Param) :
  forall properties required name,
    lookup name (fst (mcp.schema_loop params properties required))
    = match last_declared name params with
      | Some p => Some (mcp.property p)
      | None => lookup name properties
      end.
Proof.
  induction params as [|param rest IH]; intros properties required name;
    simpl; [reflexivity|].
  rewrite IH. destruct (last_declared name rest) as [q|]; [reflexivity|].
  destruct (String.eqb_spec name (config.param_Name param)) as [->|Hne].
  - apply lookup_map_set_eq.
  - now apply lookup_map_set_ne.
Qed.

Lemma schema_loop_required (params : list config.Param) :
  forall properties required,
    snd (mcp.schema_loop params properties required)
    = (required ++ required_names params)%list.
Proof.
  induction params as [|param rest IH]; intros properties required; simpl.
  - now rewrite app_nil_r.
  - rewrite IH. unfold required_names. simpl.
    destruct (config.param_Required param); simpl;
      [now rewrite <- app_assoc | reflexivity].
Qed.

Lemma inputSchema_members (tool : config.Tool) :
  exists schema,
    mcp.inputSchema tool = JObject schema
    /\ lookup "type" schema = Some (JString "object")
    /\ lookup "properties" schema
       = Some (JObject (fst (mcp.schema_loop (config.Parameters tool) [] [])))
    /\ lookup "required" schema
       = match required_names (config.Parameters tool) with
         | [] => None
         | names => Some (JArray (map JString names))
         end.
Proof.
  unfold mcp.inputSchema.
  pose proof (schema_loop_required (config.Parameters tool) [] []) as Hreq.
  destruct (mcp.schema_loop (config.Parameters tool) [] [])
    as [properties required].
  cbn [fst snd app] in *. subst required.
  destruct (required_names (config.Parameters tool)) as [|name names].
  - eexists. split; [reflexivity|]. cbn. auto.
  - eexists. split; [reflexivity|]. cbn. auto.
Qed.

Lemma keys_map_set (k k' : string) (v : Value) (m : list (string * Value)) :
  In k' (keys (map_set k v m)) <-> k' = k \/ In k' (keys m).
Proof.
  induction m as [|[k0 v0] m IH]; simpl.
  - intuition congruence.
  - destruct (String.eqb_spec k k0) as [->|Hne]; simpl.
    + intuition congruence.
    + rewrite IH. intuition congruence.
Qed.

Lemma NoDup_map_set (k : string) (v : Value) (m : list (string * Value)) :
  NoDup (keys m) -> NoDup (keys (map_set k v m)).
Proof.
  induction m as [|[k0 v0] m IH]; simpl; intros Hnd.
  - constructor; [intros [] | constructor].
  - inversion Hnd as [|? ? Hfresh Hnd']; subst.
    destruct (String.eqb_spec k k0) as [->|Hne]; simpl.
    + now constructor.
    + constructor; [|now apply IH].
      intros Hin. apply keys_map_set in Hin as [Heq|Hin]; [now apply Hne|].
      now apply Hfresh.
Qed.

Lemma schema_loop_keys (params : list config.Param) :
  forall properties required,
    NoDup (keys properties) ->
    NoDup (keys (fst (mcp.schema_loop params properties required)))
    /\ forall name,
        In name (keys (fst (mcp.schema_loop params properties required)))
        <-> In name (keys properties) \/ In name (map config.param_Name params).
Proof.
  induction params as [|param rest IH]; intros properties required Hnd; simpl.
  - split; [exact Hnd | intuition].
  - destruct (IH (map_set (config.param_Name param) (mcp.property param) properties)
                (if config.param_Required param
                 then (required ++ [config.param_Name param])%list else required)
                (NoDup_map_set _ _ _ Hnd)) as (Hnd' & Hkeys).
    split; [exact Hnd'|]. intros name. rewrite Hkeys, keys_map_set.
    intuition congruence.
Qed.

(** The entry that [handleToolsList] makes for a tool shows the tool. *)
Lemma tool_entry_shows_tool (tool : config.Tool) :
  shows_tool tool (mcp.tool_entry tool).
Proof.
  destruct (inputSchema_members tool) as (schema & Hschema & Htype & Hprops & Hreq).
  destruct (schema_loop_keys (config.Parameters tool) [] [] (NoDup_nil _))
    as (Hnd & _).
  unfold shows_tool, mcp.tool_entry. rewrite Hschema.
  split; [reflexivity|]. split; [reflexivity|].
  exists (JObject schema), (fst (mcp.schema_loop (config.Parameters tool) [] [])).
  repeat (split; [reflexivity || assumption|]).
  intros name. rewrite properties_last_declaration_wins.
  destruct (last_declared name (config.Parameters tool)) as [param|];
    [|reflexivity].
  exists (mcp.property param). split; [reflexivity | apply property_members].
Qed.

Lemma tool_entries_show_tools (tools : list config.Tool) :
  Forall2 shows_tool tools (map mcp.tool_entry tools).
Proof.
  induction tools as [|tool tools IH]; simpl; constructor;
    [apply tool_entry_shows_tool | exact IH].
Qed.

(** *** The lookup of a tool *)

Lemma find_tool_first (tools : list config.Tool) (name : string) :
  match config.find_tool tools name with
  | Some tool =>
      config.tool_Name tool = name
      /\ exists before after,
          tools = (before ++ tool :: after)%list
          /\ ~ In name (map config.tool_Name before)
  | None => ~ In name (map config.tool_Name tools)
  end.
Proof.
  induction tools as [|t tools IH]; simpl; [tauto|].
  destruct (String.eqb_spec (config.tool_Name t) name) as [Heq|Hne].
  - split; [exact Heq|]. exists [], tools. split; [reflexivity | tauto].
  - destruct (config.find_tool tools name) as [tool|].
    + destruct IH as (Hname & before & after & -> & Hfresh).
      split; [exact Hname|]. exists (t :: before), after.
      split; [reflexivity|]. simpl. tauto.
    + tauto.
Qed.

End Schema.

Section Dispatcher.

Import json observe.

Variable cmd_Run : config.Tool -> executor.ArgMap -> executor.CmdOutcome.
Variable client_Do : config.Tool -> executor.ArgMap -> executor.HTTPOutcome.
Variable extractJSONPath : string -> string -> option string.

Abbreviation HandleRequest := (mcp.HandleRequest cmd_Run client_Do extractJSONPath).
Abbreviation invoke := (mcp.invoke cmd_Run client_Do extractJSONPath).

(** Every handler of the method table answers with a response and no
    error, under the id of the request. *)
Lemma HandleRequest_shape (s : mcp.Server) (req : tunnel.MCPRequest) :
  exists result err,
    HandleRequest s req =
      (Some {| tunnel.resp_JSONRPC := "2.0"; tunnel.resp_ID := tunnel.req_ID req;
               tunnel.Result := result; tunnel.Error := err |}, None)
    /\ ((err = None /\ result <> JNull)
        \/ (result = JNull /\ exists code message,
              err = Some {| tunnel.Code := code; tunnel.Message := message;
                            tunnel.Data := JNull |}
              /\ (code = (-32601)%Z \/ code = (-32602)%Z))).
Proof.
  unfold mcp.HandleRequest.
  destruct (String.eqb (tunnel.req_Method req) "initialize").
  { eexists _, _. split; [reflexivity|]. left. split; [reflexivity | discriminate]. }
  destruct (String.eqb (tunnel.req_Method req) "tools/list").
  { eexists _, _. split; [reflexivity|]. left. split; [reflexivity | discriminate]. }
  destruct (String.eqb (tunnel.req_Method req) "tools/call").
  { unfold mcp.handleToolsCall.
    destruct (mcp.unmarshalParams (tunnel.req_Params req)) as [params|].
    - destruct (config.GetTool (mcp.server_config s) (mcp.Name params)) as [tool|].
      + eexists _, _. split; [reflexivity|]. left. split; [reflexivity | discriminate].
      + eexists _, _. split; [reflexivity|]. right. split; [reflexivity|].
        eexists _, _. split; [reflexivity | now right].
    - eexists _, _. split; [reflexivity|]. right. split; [reflexivity|].
      eexists _, _. split; [reflexivity | now right]. }
  destruct (String.eqb (tunnel.req_Method req) "ping").
  { eexists _, _. split; [reflexivity|]. left. split; [reflexivity | discriminate]. }
  eexists _, _. split; [reflexivity|]. right. split; [reflexivity|].
  eexists _, _. split; [reflexivity | now left].
Qed.

(** C8.  For every request, whatever its method and params, [HandleRequest]
    returns a response and a nil error.  The response has either a result
    or an RPC error with code -32601 or -32602, never both; and the frame
    the multiplexer writes for a request envelope that decodes to it is the
    dispatcher's response, not the -32603 frame of [sendError]. *)
Theorem HandleRequest_never_fails (s : mcp.Server) (req : tunnel.MCPRequest) :
  exists resp,
    HandleRequest s req = (Some resp, None)
    /\ ((tunnel.Error resp = None /\ tunnel.Result resp <> JNull)
        \/ (tunnel.Result resp = JNull
            /\ (error_code resp = Some (-32601)%Z
                \/ error_code resp = Some (-32602)%Z)))
    /\ forall msg,
        tunnel.unmarshalRequest (tunnel.Payload msg) = Some req ->
        tunnel.handleRequest (HandleRequest s) msg
        = tunnel.sendResponse (tunnel.RequestID msg) (Some resp).
Proof.
  destruct (HandleRequest_shape s req) as (result & err & Hreq & Hkind).
  eexists. split; [exact Hreq|]. split.
  - destruct Hkind as [[-> Hres] | (-> & code & message & -> & Hcode)].
    + left. split; [reflexivity | exact Hres].
    + right. split; [reflexivity|]. unfold error_code; simpl.
      destruct Hcode as [-> | ->]; [now left | now right].
  - intros msg Hdec. unfold tunnel.handleRequest. rewrite Hdec, Hreq. reflexivity.
Qed.



Lemma parse_error_frame (handler : tunnel.MCPHandler) (msg : tunnel.TunnelMessage) :
  tunnel.unmarshalRequest (tunnel.Payload msg) = None ->
  tunnel.handleRequest handler msg
  = tunnel.sendError (tunnel.RequestID msg) (-32700) "Parse error".
Proof.
  intros Hdec. unfold tunnel.handleRequest. now rewrite Hdec.
Qed.


(** *** Decoding the id *)








(** C4.  The error codes of the dispatcher and of the multiplexer: a
    method outside the table gives -32601 with the method in the message;
    params of tools/call that do not decode give -32602; a tools/call for
    a name that the current registry lacks gives -32602 with the name in
    the message; and a request envelope whose payload does not decode is
    answered, under the envelope's request id, with -32700. *)
Theorem dispatcher_error_codes (s : mcp.Server) (req : tunnel.MCPRequest) :
  (known_method (tunnel.req_Method req) = false ->
   is_rpc_error (HandleRequest s req) (tunnel.req_ID req) (-32601)
     ("Method not found: " ++ tunnel.req_Method req))
  /\ (tunnel.req_Method req = "tools/call" ->
      mcp.unmarshalParams (tunnel.req_Params req) = None ->
      is_rpc_error (HandleRequest s req) (tunnel.req_ID req) (-32602)
        "Invalid params")
  /\ (forall params,
        tunnel.req_Method req = "tools/call" ->
        mcp.unmarshalParams (tunnel.req_Params req) = Some params ->
        config.GetTool (mcp.server_config s) (mcp.Name params) = None ->
        is_rpc_error (HandleRequest s req) (tunnel.req_ID req) (-32602)
          ("Tool not found: " ++ mcp.Name params))
  /\ (forall handler msg,
        tunnel.unmarshalRequest (tunnel.Payload msg) = None ->
        let f := tunnel.handleRequest handler msg in
        tunnel.msg_Type f = "response"
        /\ tunnel.RequestID f = tunnel.RequestID msg
        /\ payload_member "error" f
           = Some (JObject [("code", int_lit (-32700));
                            ("message", JString "Parse error")])).
Proof.
  split; [|split; [|split]].
  - unfold known_method, mcp.HandleRequest, is_rpc_error. intros Hm.
    apply orb_false_elim in Hm as [Hm Hping].
    apply orb_false_elim in Hm as [Hm Hcall].
    apply orb_false_elim in Hm as [Hinit Hlist].
    now rewrite Hinit, Hlist, Hcall, Hping.
  - intros Hm Hdec. unfold mcp.HandleRequest, mcp.handleToolsCall, is_rpc_error.
    now rewrite Hm, Hdec.
  - intros params Hm Hdec Hfind.
    unfold mcp.HandleRequest, mcp.handleToolsCall, is_rpc_error.
    now rewrite Hm, Hdec, Hfind.
  - intros handler msg Hdec. cbv zeta. rewrite (parse_error_frame _ _ Hdec).
    repeat split; reflexivity.
Qed.

(** C5.  For a tools/call whose params decode and name a tool of the
    registry, the response is a result whose [isError] member is true
    exactly when the exit code of the invocation is not zero. *)
Theorem isError_iff_nonzero_exit (s : mcp.Server) (req : tunnel.MCPRequest)
  (params : mcp.toolCallParams) (tool : config.Tool) :
  tunnel.req_Method req = "tools/call" ->
  mcp.unmarshalParams (tunnel.req_Params req) = Some params ->
  config.GetTool (mcp.server_config s) (mcp.Name params) = Some tool ->
  exists resp b,
    HandleRequest s req = (Some resp, None)
    /\ tunnel.Error resp = None
    /\ result_member "isError" resp = Some (JBool b)
    /\ (b = true <-> executor.ExitCode (invoke tool (mcp.Arguments params)) <> 0%Z).
Proof.
  intros Hm Hdec Hfind.
  unfold mcp.HandleRequest, mcp.handleToolsCall. rewrite Hm, Hdec, Hfind.
  cbn [String.eqb Ascii.eqb Bool.eqb].
  eexists _, _. split; [reflexivity|]. split; [reflexivity|].
  split; [reflexivity|].
  rewrite negb_true_iff. apply Z.eqb_neq.
Qed.

(** C9.  When the exchange of an HTTP tool gives a response, the exit code
    of the result is 1 for a status of 400 or more and 0 below, so that
    the [isError] member of the tools/call response is true exactly for
    those statuses. *)
Theorem http_status_decides_exit_code (tool : config.Tool)
  (args : executor.ArgMap) (status : Z) (body : string) :
  client_Do tool args = executor.Responded status body ->
  let result := executor.HTTPExecute client_Do extractJSONPath tool args in
  ((400 <= status)%Z -> executor.ExitCode result = 1%Z)
  /\ ((status < 400)%Z -> executor.ExitCode result = 0%Z)
  /\ forall s req params,
      tunnel.req_Method req = "tools/call" ->
      mcp.unmarshalParams (tunnel.req_Params req) = Some params ->
      config.GetTool (mcp.server_config s) (mcp.Name params) = Some tool ->
      config.IsHTTP tool = true ->
      mcp.Arguments params = args ->
      exists resp b,
        HandleRequest s req = (Some resp, None)
        /\ result_member "isError" resp = Some (JBool b)
        /\ (b = true <-> (400 <= status)%Z).
Proof.
  intros Hdo. cbv zeta.
  assert (Hcode : executor.ExitCode
                    (executor.HTTPExecute client_Do extractJSONPath tool args)
                  = if (status >=? 400)%Z then 1%Z else 0%Z).
  { unfold executor.HTTPExecute. rewrite Hdo. reflexivity. }
  split; [|split].
  - intros Hge. rewrite Hcode.
    destruct (Z.geb_spec status 400); [reflexivity | lia].
  - intros Hlt. rewrite Hcode.
    destruct (Z.geb_spec status 400); [lia | reflexivity].
  - intros s req params Hm Hdec Hfind Hhttp Hargs.
    unfold mcp.HandleRequest, mcp.handleToolsCall. rewrite Hm, Hdec, Hfind.
    cbn [String.eqb Ascii.eqb Bool.eqb].
    eexists _, _. split; [reflexivity|]. split; [reflexivity|].
    unfold mcp.invoke. rewrite Hhttp, Hargs, Hcode.
    destruct (Z.geb_spec status 400); cbn; split; intros; try lia;
      try reflexivity; try discriminate.
Qed.

(** C6, as the code has it.  tools/list returns one entry per tool of the
    registry, in order.  Each entry has the name, the description and an
    input schema of type object with a properties object, and a [required]
    member that lists the names of the parameters declared required, or is
    absent when there are none.  The properties are a map: one property
    for each name that a parameter has, showing the type, the description
    and, only when it is not empty, the default of the last parameter
    declared under that name.  For a tool whose parameter names are
    distinct that is one property per declared parameter, under the
    parameter's name. *)
Theorem tools_list_schema (s : mcp.Server) (req : tunnel.MCPRequest) :
  tunnel.req_Method req = "tools/list" ->
  exists resp entries,
    HandleRequest s req = (Some resp, None)
    /\ tunnel.Error resp = None
    /\ result_member "tools" resp = Some (JArray entries)
    /\ List.length entries = List.length (config.Tools (mcp.server_config s))
    /\ forall i tool,
        nth_error (config.Tools (mcp.server_config s)) i = Some tool ->
        exists entry schema properties,
          nth_error entries i = Some entry
          /\ member "name" entry = Some (JString (config.tool_Name tool))
          /\ member "description" entry
             = Some (JString (config.tool_Description tool))
          /\ member "inputSchema" entry = Some schema
          /\ member "type" schema = Some (JString "object")
          /\ member "properties" schema = Some (JObject properties)
          /\ member "required" schema
             = match required_names (config.Parameters tool) with
               | [] => None
               | names => Some (JArray (map JString names))
               end
          /\ NoDup (keys properties)
          /\ (forall name,
                In name (keys properties)
                <-> In name (map config.param_Name (config.Parameters tool)))
          /\ (forall name param,
                last_declared name (config.Parameters tool) = Some param ->
                exists prop,
                  lookup name properties = Some prop
                  /\ shows_parameter param prop)
          /\ (unique_parameter_names tool ->
              keys properties = map config.param_Name (config.Parameters tool)
              /\ forall param,
                  In param (config.Parameters tool) ->
                  exists prop,
                    lookup (config.param_Name param) properties = Some prop
                    /\ member "type" prop
                       = Some (JString (config.param_Type param))
                    /\ member "description" prop
                       = Some (JString (config.param_Description param))
                    /\ member "default" prop
                       = if String.eqb (config.param_Default param) ""
                         then None
                         else Some (JString (config.param_Default param))).
Proof.
  intros Hm.
  unfold mcp.HandleRequest. rewrite Hm. cbn [String.eqb Ascii.eqb Bool.eqb].
  unfold mcp.handleToolsList, mcp.result_response.
  eexists _, _. split; [reflexivity|]. split; [reflexivity|].
  split; [reflexivity|]. split; [apply length_map|].
  intros i tool Hnth.
  destruct (inputSchema_members tool) as (schema & Hschema & Htype & Hprops & Hreq).
  destruct (schema_loop_keys (config.Parameters tool) [] [] (NoDup_nil _))
    as (Hnd & Hkeys).
  exists (mcp.tool_entry tool), (JObject schema),
    (fst (mcp.schema_loop (config.Parameters tool) [] [])).
  split; [now rewrite nth_error_map, Hnth|].
  unfold mcp.tool_entry. rewrite Hschema.
  repeat (split; [reflexivity || assumption|]).
  split; [|split].
  - intros name. rewrite Hkeys. split; [intros [[]|Hin]; exact Hin | now right].
  - intros name param Hlast. rewrite properties_last_declaration_wins, Hlast.
    exists (mcp.property param). split; [reflexivity | apply property_members].
  - intros Hunique. unfold unique_parameter_names in Hunique.
    rewrite schema_loop_unique by exact Hunique. cbn [fst app]. split.
    + unfold keys. rewrite map_map. reflexivity.
    + intros param Hin. exists (mcp.property param).
      split; [now apply lookup_declared|].
      apply property_members.
Qed.

(** *** Reloading the registry *)

Lemma serve_app (s : mcp.Server) (a b : list mcp.Event) :
  mcp.serve cmd_Run client_Do extractJSONPath s (a ++ b)
  = let '(out1, s1) := mcp.serve cmd_Run client_Do extractJSONPath s a in
    let '(out2, s2) := mcp.serve cmd_Run client_Do extractJSONPath s1 b in
    ((out1 ++ out2)%list, s2).
Proof.
  revert s. induction a as [|[req|cfg] a IH]; intros s; simpl.
  - now destruct (mcp.serve _ _ _ s b).
  - rewrite IH.
    destruct (mcp.serve _ _ _ s a) as [out1 s1].
    now destruct (mcp.serve _ _ _ s1 b).
  - apply IH.
Qed.

(** What tools/call answers when its params decode: an error when the
    registry has no tool of the name, a result when it has one. *)
Lemma tools_call_looks_up (s : mcp.Server) (call : tunnel.MCPRequest)
  (params : mcp.toolCallParams) :
  tunnel.req_Method call = "tools/call" ->
  mcp.unmarshalParams (tunnel.req_Params call) = Some params ->
  exists resp,
    HandleRequest s call = (Some resp, None)
    /\ (In (mcp.Name params) (map config.tool_Name (config.Tools (mcp.server_config s)))
        -> tunnel.Error resp = None)
    /\ (~ In (mcp.Name params) (map config.tool_Name (config.Tools (mcp.server_config s)))
        -> is_rpc_error (Some resp, None) (tunnel.req_ID call) (-32602)
             ("Tool not found: " ++ mcp.Name params)).
Proof.
  intros Hm Hdec.
  unfold mcp.HandleRequest, mcp.handleToolsCall, config.GetTool.
  rewrite Hm, Hdec. cbn [String.eqb Ascii.eqb Bool.eqb].
  pose proof (find_tool_first (config.Tools (mcp.server_config s)) (mcp.Name params))
    as Hfind.
  destruct (config.find_tool (config.Tools (mcp.server_config s)) (mcp.Name params))
    as [tool|].
  - destruct Hfind as (Hname & before & after & Htools & _).
    eexists. split; [reflexivity|]. split; [reflexivity|].
    intros Hnot. exfalso. apply Hnot. rewrite Htools, map_app.
    apply in_or_app. right. left. exact Hname.
  - eexists. split; [reflexivity|]. split; [|reflexivity].
    intros Hin. now contradiction Hfind.
Qed.

(** C1.  In any run, a tools/list that follows a reload of the registry
    lists the tools of the new registry and nothing else, one entry for
    each in their order, each entry showing the name, the description and
    the parameters of its tool, whatever the server held before and
    whatever was asked of it; a request made before the reload was
    answered from the registry held then.  So is a tools/call that
    follows the reload: it finds a tool exactly when the new registry has
    one of that name. *)
Theorem tools_list_follows_reload (s : mcp.Server) (before : list mcp.Event)
  (cfg : config.Config) (req1 req2 : tunnel.MCPRequest) :
  tunnel.req_Method req2 = "tools/list" ->
  let served := mcp.serve cmd_Run client_Do extractJSONPath s before in
  (exists resp entries,
      mcp.serve cmd_Run client_Do extractJSONPath s
        (before ++ [mcp.Request req1; mcp.Reload cfg; mcp.Request req2])
      = ((fst served ++ [HandleRequest (snd served) req1; (Some resp, None)])%list,
         mcp.NewServer cfg)
      /\ tunnel.resp_ID resp = tunnel.req_ID req2
      /\ tunnel.Error resp = None
      /\ result_member "tools" resp = Some (JArray entries)
      /\ Forall2 shows_tool (config.Tools cfg) entries)
  /\ forall call params,
      tunnel.req_Method call = "tools/call" ->
      mcp.unmarshalParams (tunnel.req_Params call) = Some params ->
      exists resp,
        mcp.serve cmd_Run client_Do extractJSONPath s
          (before ++ [mcp.Request req1; mcp.Reload cfg; mcp.Request call])
        = ((fst served ++ [HandleRequest (snd served) req1; (Some resp, None)])%list,
           mcp.NewServer cfg)
        /\ (In (mcp.Name params) (map config.tool_Name (config.Tools cfg))
            -> tunnel.Error resp = None)
        /\ (~ In (mcp.Name params) (map config.tool_Name (config.Tools cfg))
            -> is_rpc_error (Some resp, None) (tunnel.req_ID call) (-32602)
                 ("Tool not found: " ++ mcp.Name params)).
Proof.
  intros Hm. cbv zeta. split.
  - rewrite serve_app.
    destruct (mcp.serve _ _ _ s before) as [out1 s1]. cbn [fst snd mcp.serve].
    unfold mcp.HandleRequest at 2. rewrite Hm. cbn [String.eqb Ascii.eqb Bool.eqb].
    unfold mcp.handleToolsList, mcp.result_response, mcp.UpdateConfig.
    cbn [mcp.server_config].
    eexists _, _. split; [reflexivity|]. split; [reflexivity|].
    split; [reflexivity|]. split; [reflexivity|].
    apply tool_entries_show_tools.
  - intros call params Hcall Hdec. rewrite serve_app.
    destruct (mcp.serve _ _ _ s before) as [out1 s1]. cbn [fst snd mcp.serve].
    destruct (tools_call_looks_up (mcp.UpdateConfig s1 cfg) call params Hcall Hdec)
      as (resp & -> & Hfound & Hmissing).
    exists resp. split; [reflexivity|]. split; assumption.
Qed.

End Dispatcher.

Section TrimFacts.

Import strings.

Lemma append_empty_r (s : string) : s ++ "" = s.
Proof. induction s as [|c s IH]; simpl; [reflexivity | now rewrite IH]. Qed.

Lemma append_assoc (a b c : string) : (a ++ b) ++ c = a ++ b ++ c.
Proof. induction a as [|x a IH]; simpl; [reflexivity | now rewrite IH]. Qed.

Lemma length_app_string (a b : string) :
  String.length (a ++ b) = (String.length a + String.length b)%nat.
Proof. induction a as [|c a IH]; simpl; [reflexivity | now rewrite IH]. Qed.

Lemma stripPrefix_split (p s r : string) :
  stripPrefix p s = Some r -> s = p ++ r.
Proof.
  revert s. induction p as [|a p IH]; intros s; simpl.
  - now intros [= ->].
  - destruct s as [|b s]; [discriminate|].
    destruct (Ascii.eqb_spec a b) as [->|]; [|discriminate].
    intros H. now rewrite (IH _ H).
Qed.

Lemma stripPrefix_more (p s r t : string) :
  stripPrefix p s = Some r -> stripPrefix p (s ++ t) = Some (r ++ t).
Proof.
  revert s. induction p as [|a p IH]; intros s; simpl.
  - now intros [= ->].
  - destruct s as [|b s]; [discriminate|]. simpl.
    destruct (Ascii.eqb a b); [apply IH | discriminate].
Qed.

Lemma strip_any_split (ps : list string) (s r : string) :
  strip_any ps s = Some r -> exists p, In p ps /\ s = p ++ r.
Proof.
  induction ps as [|p ps IH]; simpl; [discriminate|].
  destruct (stripPrefix p s) as [r'|] eqn:Hp.
  - intros [= <-]. exists p. split; [now left | now apply stripPrefix_split].
  - intros H. destruct (IH H) as (q & Hin & Hs). exists q. split; [now right | exact Hs].
Qed.

Lemma strip_any_more (ps : list string) (s t : string) :
  strip_any ps (s ++ t) = None -> strip_any ps s = None.
Proof.
  induction ps as [|p ps IH]; simpl; [reflexivity|].
  destruct (stripPrefix p s) as [r|] eqn:Hp.
  - now rewrite (stripPrefix_more _ _ _ t Hp).
  - destruct (stripPrefix p (s ++ t)); [discriminate | exact IH].
Qed.

Lemma trim_left_is_suffix (ps : list string) (fuel : nat) (s : string) :
  exists before, s = before ++ trim_left ps fuel s.
Proof.
  revert s. induction fuel as [|fuel IH]; intros s; simpl.
  - now exists "".
  - destruct (strip_any ps s) as [r|] eqn:Hstrip; [|now exists ""].
    destruct (strip_any_split _ _ _ Hstrip) as (p & _ & ->).
    destruct (IH r) as (before & Hr). exists (p ++ before).
    now rewrite append_assoc, <- Hr.
Qed.

Lemma trim_left_complete (ps : list string) (fuel : nat) (s : string) :
  (forall p, In p ps -> p <> "") ->
  (String.length s <= fuel)%nat ->
  strip_any ps (trim_left ps fuel s) = None.
Proof.
  intros Hne. revert s. induction fuel as [|fuel IH]; intros s Hlen; simpl.
  - destruct (strip_any ps s) as [r|] eqn:Hstrip; [|reflexivity].
    destruct (strip_any_split _ _ _ Hstrip) as (p & Hin & ->).
    destruct p as [|c p]; [now contradiction (Hne _ Hin)|]. simpl in Hlen. lia.
  - destruct (strip_any ps s) as [r|] eqn:Hstrip; [|exact Hstrip].
    apply IH. destruct (strip_any_split _ _ _ Hstrip) as (p & Hin & ->).
    destruct p as [|c p]; [now contradiction (Hne _ Hin)|].
    simpl in Hlen. rewrite length_app_string in Hlen. lia.
Qed.

Lemma trim_left_nothing (ps : list string) (fuel : nat) (s : string) :
  strip_any ps s = None -> trim_left ps fuel s = s.
Proof. intros H. destruct fuel; simpl; [reflexivity | now rewrite H]. Qed.

Lemma reverse_onto_spec (s acc : string) :
  reverse_onto s acc = reverse s ++ acc.
Proof.
  unfold reverse. revert acc. induction s as [|c s IH]; intros acc; simpl;
    [reflexivity|].
  rewrite (IH (String c acc)), (IH (String c "")), append_assoc. reflexivity.
Qed.

Lemma reverse_app (a b : string) : reverse (a ++ b) = reverse b ++ reverse a.
Proof.
  induction a as [|c a IH]; simpl.
  - now rewrite append_empty_r.
  - unfold reverse in *. simpl.
    rewrite (reverse_onto_spec (a ++ b)), (reverse_onto_spec a).
    unfold reverse. rewrite IH, append_assoc. reflexivity.
Qed.

Lemma reverse_involutive (s : string) : reverse (reverse s) = s.
Proof.
  induction s as [|c s IH]; [reflexivity|].
  unfold reverse at 2. simpl. rewrite reverse_onto_spec, reverse_app, IH.
  reflexivity.
Qed.

Lemma length_reverse (s : string) : String.length (reverse s) = String.length s.
Proof.
  induction s as [|c s IH]; [reflexivity|].
  unfold reverse. simpl. rewrite reverse_onto_spec, length_app_string, IH.
  simpl. lia.
Qed.

Lemma space_runes_not_empty :
  (forall p, In p space_runes -> p <> "")
  /\ (forall p, In p (map reverse space_runes) -> p <> "").
Proof.
  split; intros p Hin; cbv in Hin;
    repeat (destruct Hin as [<-|Hin]; [discriminate|]); contradiction.
Qed.

(** What [TrimSpace] returns neither starts nor ends with white space,
    and is a part of the string it was given. *)
Lemma TrimSpace_trims (s : string) :
  HasSpacePrefix (TrimSpace s) = false
  /\ HasSpaceSuffix (TrimSpace s) = false
  /\ exists before after, s = before ++ TrimSpace s ++ after.
Proof.
  destruct space_runes_not_empty as (Hne & Hne').
  unfold TrimSpace, TrimRightSpace, TrimLeftSpace, HasSpacePrefix, HasSpaceSuffix.
  destruct (trim_left_is_suffix space_runes (String.length s) s) as (before & Hs).
  pose proof (trim_left_complete space_runes (String.length s) s Hne (le_n _)) as Hleft.
  set (t := trim_left space_runes (String.length s) s) in *.
  destruct (trim_left_is_suffix (map reverse space_runes) (String.length t) (reverse t))
    as (q & Ht).
  assert (Hright : strip_any (map reverse space_runes)
                     (trim_left (map reverse space_runes) (String.length t) (reverse t))
                   = None).
  { apply trim_left_complete; [exact Hne'|]. now rewrite length_reverse. }
  set (u := trim_left (map reverse space_runes) (String.length t) (reverse t)) in *.
  assert (Ht' : t = reverse u ++ reverse q).
  { rewrite <- reverse_app, <- Ht. now rewrite reverse_involutive. }
  split; [|split].
  - rewrite Ht' in Hleft. now rewrite (strip_any_more _ _ _ Hleft).
  - now rewrite reverse_involutive, Hright.
  - exists before, (reverse q). now rewrite <- Ht'.
Qed.

Lemma TrimSpace_fixes_trimmed (s : string) :
  HasSpacePrefix s = false -> HasSpaceSuffix s = false -> TrimSpace s = s.
Proof.
  unfold HasSpacePrefix, HasSpaceSuffix, TrimSpace, TrimRightSpace, TrimLeftSpace.
  destruct (strip_any space_runes s) eqn:Hl; [discriminate|]. intros _.
  destruct (strip_any (map reverse space_runes) (reverse s)) eqn:Hr; [discriminate|].
  intros _. rewrite (trim_left_nothing _ _ _ Hl), (trim_left_nothing _ _ _ Hr).
  apply reverse_involutive.
Qed.

(** *** What is cut off is white space *)

Lemma trim_left_cut (ps : list string) (fuel : nat) (s : string) :
  exists cut,
    Forall (fun p => In p ps) cut
    /\ s = fold_right append (trim_left ps fuel s) cut.
Proof.
  revert s. induction fuel as [|fuel IH]; intros s; simpl.
  - exists []. split; [constructor | reflexivity].
  - destruct (strip_any ps s) as [r|] eqn:Hstrip;
      [|exists []; split; [constructor | reflexivity]].
    destruct (strip_any_split _ _ _ Hstrip) as (p & Hin & ->).
    destruct (IH r) as (cut & Hall & Hr). exists (p :: cut).
    split; [now constructor|]. simpl. now rewrite <- Hr.
Qed.

Lemma fold_right_append (cut : list string) (s : string) :
  fold_right append s cut = fold_right append "" cut ++ s.
Proof.
  induction cut as [|p cut IH]; simpl; [reflexivity|].
  now rewrite IH, append_assoc.
Qed.

Lemma only_space_runes (cut : list string) :
  Forall (fun p => In p space_runes) cut ->
  observe.only_space (fold_right append "" cut).
Proof.
  induction 1 as [|p cut Hin _ IH]; simpl; [constructor|].
  now constructor.
Qed.

Lemma reverse_runes (cut : list string) :
  reverse (fold_right append "" cut)
  = fold_right append "" (map reverse (rev cut)).
Proof.
  induction cut as [|p cut IH]; simpl; [reflexivity|].
  rewrite reverse_app, IH, map_app, fold_right_app. simpl.
  rewrite append_empty_r.
  now rewrite <- (fold_right_append (map reverse (rev cut)) (reverse p)).
Qed.

(** [TrimSpace] cuts white space off the two ends of a string, and
    nothing else: what it returns is the string between the two cuts. *)
Lemma TrimSpace_cuts_space (s : string) :
  exists before after,
    s = before ++ TrimSpace s ++ after
    /\ observe.only_space before /\ observe.only_space after.
Proof.
  unfold TrimSpace, TrimRightSpace, TrimLeftSpace.
  destruct (trim_left_cut space_runes (String.length s) s) as (cut & Hcut & Hs).
  set (t := trim_left space_runes (String.length s) s) in *.
  destruct (trim_left_cut (map reverse space_runes) (String.length t) (reverse t))
    as (cut' & Hcut' & Ht).
  set (u := trim_left (map reverse space_runes) (String.length t) (reverse t)) in *.
  rewrite fold_right_append in Hs, Ht.
  assert (Ht' : t = reverse u ++ reverse (fold_right append "" cut')).
  { rewrite <- reverse_app, <- Ht. now rewrite reverse_involutive. }
  exists (fold_right append "" cut), (reverse (fold_right append "" cut')).
  split; [now rewrite <- Ht'|]. split; [now apply only_space_runes|].
  rewrite reverse_runes. apply only_space_runes.
  apply Forall_forall. intros p Hin. apply in_map_iff in Hin as (q & <- & Hq).
  apply in_rev in Hq. rewrite Forall_forall in Hcut'.
  apply Hcut' in Hq. apply in_map_iff in Hq as (rune & <- & Hrune).
  now rewrite reverse_involutive.
Qed.

End TrimFacts.

Section Process.

Import json observe.

Variable cmd_Run : config.Tool -> executor.ArgMap -> executor.CmdOutcome.

(** C10.  Whatever [cmd.Run] returned, nil, an exit status or another
    failure, the output of the result is the text of stdout followed by
    stderr, with a newline between the two when neither is empty, without
    the white space at its two ends: the output neither starts nor ends
    with a white space rune, and what the merged text has before it and
    after it is white space only. *)
Theorem Execute_merges_stdout_and_stderr (tool : config.Tool)
  (args : executor.ArgMap) (out err : string) (e : option executor.RunError) :
  cmd_Run tool args
  = {| executor.stdout := out; executor.stderr := err; executor.run_err := e |} ->
  let output := executor.Output (executor.Execute cmd_Run tool args) in
  output = strings.TrimSpace (stdout_then_stderr out err)
  /\ strings.HasSpacePrefix output = false
  /\ strings.HasSpaceSuffix output = false
  /\ exists before after,
      stdout_then_stderr out err = before ++ output ++ after
      /\ only_space before /\ only_space after.
Proof.
  intros Hrun. cbv zeta.
  assert (Houtput : executor.Output (executor.Execute cmd_Run tool args)
                    = strings.TrimSpace (stdout_then_stderr out err)).
  { unfold executor.Execute. rewrite Hrun.
    cbn [executor.stdout executor.stderr executor.run_err].
    assert (Hout :
      (if (0 <? String.length err)%nat
       then (if negb (String.eqb out "") then out ++ bytes [10] else out) ++ err
       else out)
      = stdout_then_stderr out err).
    { unfold stdout_then_stderr. destruct err as [|c err].
      - cbn [String.length Nat.ltb Nat.leb]. rewrite andb_false_r.
        now rewrite append_empty_r.
      - cbn [String.length Nat.ltb Nat.leb]. rewrite andb_true_r.
        destruct (negb (String.eqb out "")); [apply append_assoc | reflexivity]. }
    rewrite Hout.
    destruct e as [[code desc|desc]|]; reflexivity. }
  rewrite Houtput.
  destruct (TrimSpace_trims (stdout_then_stderr out err)) as (Hl & Hr & _).
  split; [reflexivity|]. split; [exact Hl|]. split; [exact Hr|].
  apply TrimSpace_cuts_space.
Qed.

End Process.

Section Session.

Import tunnel.

Lemma on_message_prints_nothing (c : Client) (msg : TunnelMessage) (line : string) :
  ~ In (Printed line) (on_message c msg).
Proof.
  unfold on_message.
  destruct (String.eqb (msg_Type msg) "request");
    [intros [H|[]]; discriminate|].
  destruct (String.eqb (msg_Type msg) "ping");
    [intros [H|[]]; discriminate|].
  destruct (String.eqb (msg_Type msg) "client_connected"); [|intros []].
  destruct (onClientConnected c && negb (String.eqb (ClientIP msg) ""));
    [intros [H|[]]; discriminate | intros []].
Qed.

(** While every read gives an envelope the loop goes on: [done] is as it
    was. *)
Lemma handleMessages_running (c : Client) (msgs : list TunnelMessage) :
  fst (handleMessages c (map ReadOK msgs)) = c.
Proof.
  induction msgs as [|msg msgs IH]; simpl; [reflexivity|].
  destruct (handleMessages c (map ReadOK msgs)). exact IH.
Qed.

(** The loop ends at the first read that fails: [done] is closed, and
    the failure is printed unless it is a normal closure or a going away
    of the peer. *)
Lemma handleMessages_ended (c : Client) (msgs : list TunnelMessage)
  (e : ReadError) (rest : list ReadResult) :
  let r := handleMessages c (map ReadOK msgs ++ ReadFailed e :: rest) in
  fst r = close_done c
  /\ (IsCloseError e [CloseNormalClosure; CloseGoingAway] = false ->
      In (Printed ("Error reading message: " ++ read_error_desc e ++ json.bytes [10]))
        (snd r))
  /\ (IsCloseError e [CloseNormalClosure; CloseGoingAway] = true ->
      forall line, ~ In (Printed line) (snd r)).
Proof.
  induction msgs as [|msg msgs IH]; cbn zeta in *; simpl.
  - destruct (IsCloseError e [CloseNormalClosure; CloseGoingAway]); simpl;
      repeat split; intros; try discriminate; auto.
  - destruct (handleMessages c (map ReadOK msgs ++ ReadFailed e :: rest))
      as [c' effects].
    simpl in *. destruct IH as (Hc & Hfatal & Hclose).
    split; [exact Hc|]. split.
    + intros Hk. apply in_or_app. right. now apply Hfatal.
    + intros Hk line Hin. apply in_app_or in Hin as [Hin|Hin].
      * now apply on_message_prints_nothing in Hin.
      * now apply (Hclose Hk line).
Qed.

(** C3, as the code has it.  [Wait] is blocked while the read loop runs
    and returns once the loop has ended; what it returns is nil, also
    when the loop ended on a failed read that is neither a normal closure
    nor a going away.  Such a failure is printed by the loop and not
    handed to the caller of [Wait]. *)
Theorem Wait_returns_nil_when_loop_ends (c : Client) (msgs : list TunnelMessage)
  (e : ReadError) (rest : list ReadResult) :
  done c = false ->
  Wait (fst (handleMessages c (map ReadOK msgs))) = None
  /\ Wait (fst (handleMessages c (map ReadOK msgs ++ ReadFailed e :: rest)))
     = Some None
  /\ (IsCloseError e [CloseNormalClosure; CloseGoingAway] = false ->
      In (Printed ("Error reading message: " ++ read_error_desc e ++ json.bytes [10]))
        (snd (handleMessages c (map ReadOK msgs ++ ReadFailed e :: rest)))).
Proof.
  intros Hopen.
  destruct (handleMessages_ended c msgs e rest) as (Hc & Hfatal & _).
  rewrite handleMessages_running, Hc.
  unfold Wait. rewrite Hopen. cbn [done close_done].
  repeat split. exact Hfatal.
Qed.

(** C7.  When the first frame after the dial is not of type registered,
    [Connect] closes the connection and returns an error, and starts
    neither the read loop nor the keepalive loop.  Whatever the dial and
    the first read give, [Connect] either fails and starts nothing, or
    the frame was of type registered and it starts exactly the two
    loops. *)
Theorem Connect_starts_loops_after_handshake (c : Client) (msg : TunnelMessage) :
  msg_Type msg <> "registered" ->
  (let r := Connect c DialOK (ReadOK msg) in
   snd (snd r) = Some ("unexpected message type: " ++ msg_Type msg)
   /\ fst (snd r) = ""
   /\ conn (fst r) = ConnClosed
   /\ started (fst r) = started c)
  /\ forall dial first,
      let r := Connect c dial first in
      (snd (snd r) <> None /\ started (fst r) = started c)
      \/ (snd (snd r) = None
          /\ started (fst r) = (started c ++ [go_handleMessages; go_keepalive])%list
          /\ conn (fst r) = ConnOpen
          /\ dial = DialOK
          /\ exists m, first = ReadOK m /\ msg_Type m = "registered"
                       /\ fst (snd r) = TunnelURL m).
Proof.
  intros Htype. split.
  - cbv zeta. unfold Connect.
    destruct (String.eqb_spec (msg_Type msg) "registered") as [Heq|_];
      [contradiction|].
    cbn. auto.
  - intros dial first. cbv zeta. unfold Connect.
    destruct dial as [|[code|] err].
    + destruct first as [m|e].
      * destruct (String.eqb_spec (msg_Type m) "registered") as [Heq|Hne]; cbn.
        -- right. repeat split. exists m. auto.
        -- left. split; [discriminate | reflexivity].
      * cbn. left. split; [discriminate | reflexivity].
    + destruct (Z.eqb code StatusUpgradeRequired); cbn; left;
        (split; [discriminate | reflexivity]).
    + cbn. left. split; [discriminate | reflexivity].
Qed.

End Session.

(** * The properties at concrete inputs *)

Section Evaluations.

Import json observe.

(** C1 at a run that lists the tools of [hello], reloads to the registry
    of [list_files] and [get_weather], and lists again, or calls [hello]:
    the first listing names [hello], the second the two new tools, and
    the call finds no tool. *)
Lemma tools_list_follows_reload_witness :
  tunnel.req_Method (sample.request (JNumber "2") "tools/list" None) = "tools/list"
  /\ map listed_names
       (fst (mcp.serve sample.cmd_Run sample.client_Do sample.extractJSONPath
               (sample.server [sample.hello])
               ([] ++ [mcp.Request (sample.request (JNumber "1") "tools/list" None);
                       mcp.Reload (sample.registry [sample.list_files; sample.get_weather]);
                       mcp.Request (sample.request (JNumber "2") "tools/list" None)])))
     = [["hello"]; ["list_files"; "get_weather"]]
  /\ (exists resp entries,
        mcp.serve sample.cmd_Run sample.client_Do sample.extractJSONPath
          (sample.server [sample.hello])
          ([] ++ [mcp.Request (sample.request (JNumber "1") "tools/list" None);
                  mcp.Reload (sample.registry [sample.list_files; sample.get_weather]);
                  mcp.Request (sample.request (JNumber "2") "tools/list" None)])
        = (([] ++ [sample.dispatcher (sample.server [sample.hello])
                     (sample.request (JNumber "1") "tools/list" None);
                   (Some resp, None)])%list,
           sample.server [sample.list_files; sample.get_weather])
        /\ tunnel.resp_ID resp = JNumber "2"
        /\ tunnel.Error resp = None
        /\ result_member "tools" resp = Some (JArray entries)
        /\ Forall2 shows_tool [sample.list_files; sample.get_weather] entries)
  /\ exists resp,
      mcp.serve sample.cmd_Run sample.client_Do sample.extractJSONPath
        (sample.server [sample.hello])
        ([] ++ [mcp.Request (sample.request (JNumber "1") "tools/list" None);
                mcp.Reload (sample.registry [sample.list_files; sample.get_weather]);
                mcp.Request (sample.request (JNumber "3") "tools/call"
                               (sample.call_params "hello" "name" "World"))])
      = (([] ++ [sample.dispatcher (sample.server [sample.hello])
                   (sample.request (JNumber "1") "tools/list" None);
                 (Some resp, None)])%list,
         sample.server [sample.list_files; sample.get_weather])
      /\ is_rpc_error (Some resp, None) (JNumber "3") (-32602) "Tool not found: hello".
Proof.
  pose proof (tools_list_follows_reload sample.cmd_Run sample.client_Do
                sample.extractJSONPath (sample.server [sample.hello]) []
                (sample.registry [sample.list_files; sample.get_weather])
                (sample.request (JNumber "1") "tools/list" None)
                (sample.request (JNumber "2") "tools/list" None)
                eq_refl) as [Hlist Hcall].
  split; [reflexivity|]. split; [reflexivity|]. split; [exact Hlist|].
  destruct (Hcall (sample.request (JNumber "3") "tools/call"
                     (sample.call_params "hello" "name" "World"))
              {| mcp.Name := "hello";
                 mcp.Arguments := Some [("name", JString "World")] |}
              eq_refl eq_refl)
    as (resp & Hrun & _ & Hmissing).
  exists resp. split; [exact Hrun|]. apply Hmissing.
  cbn. intros [H|[H|[]]]; discriminate H.
Defined.



(** C3 as stated fails: after an abrupt disconnect [Wait] returns nil. *)
Lemma Wait_returns_nil_on_fatal_read :
  tunnel.IsCloseError (tunnel.OtherReadError "unexpected EOF")
    [tunnel.CloseNormalClosure; tunnel.CloseGoingAway] = false
  /\ tunnel.Wait
       (fst (tunnel.handleMessages sample.client
               [tunnel.ReadFailed (tunnel.OtherReadError "unexpected EOF")]))
     = Some None
  /\ ~ exists err,
        tunnel.Wait
          (fst (tunnel.handleMessages sample.client
                  [tunnel.ReadFailed (tunnel.OtherReadError "unexpected EOF")]))
        = Some (Some err).
Proof.
  split; [reflexivity|]. split; [reflexivity|].
  intros [err H]. discriminate H.
Qed.

(** C3 at a session that answers one ping and then loses the
    connection. *)
Lemma Wait_returns_nil_when_loop_ends_witness :
  tunnel.done sample.client = false
  /\ tunnel.Wait
       (fst (tunnel.handleMessages sample.client
               (map tunnel.ReadOK [tunnel.frame "ping" "" None])))
     = None
  /\ tunnel.Wait
       (fst (tunnel.handleMessages sample.client
               (map tunnel.ReadOK [tunnel.frame "ping" "" None]
                  ++ tunnel.ReadFailed (tunnel.OtherReadError "unexpected EOF") :: [])))
     = Some None.
Proof.
  split; [reflexivity|].
  destruct (Wait_returns_nil_when_loop_ends sample.client
              [tunnel.frame "ping" "" None]
              (tunnel.OtherReadError "unexpected EOF") [] eq_refl)
    as (Hblocked & Hnil & _).
  split; [exact Hblocked | exact Hnil].
Defined.

(** C4 at a request for an unknown method, two tools/call requests with
    bad params and an unknown name, and an envelope that does not
    decode. *)
Lemma dispatcher_error_codes_witness :
  is_rpc_error
    (sample.dispatcher (sample.server [sample.hello])
       (sample.request (JNumber "1") "resources/list" None))
    (JNumber "1") (-32601) "Method not found: resources/list"
  /\ is_rpc_error
       (sample.dispatcher (sample.server [sample.hello])
          (sample.request (JNumber "2") "tools/call" (Some (JString "hello"))))
       (JNumber "2") (-32602) "Invalid params"
  /\ is_rpc_error
       (sample.dispatcher (sample.server [sample.hello])
          (sample.request (JNumber "3") "tools/call"
             (sample.call_params "missing" "name" "World")))
       (JNumber "3") (-32602) "Tool not found: missing"
  /\ tunnel.RequestID
       (tunnel.handleRequest (sample.dispatcher (sample.server [sample.hello]))
          (tunnel.frame "request" "r-1" sample.bad_method_payload))
     = "r-1".
Proof.
  split; [|split; [|split]].
  - exact (proj1 (dispatcher_error_codes sample.cmd_Run sample.client_Do
                    sample.extractJSONPath (sample.server [sample.hello])
                    (sample.request (JNumber "1") "resources/list" None))
             eq_refl).
  - exact (proj1 (proj2 (dispatcher_error_codes sample.cmd_Run sample.client_Do
                    sample.extractJSONPath (sample.server [sample.hello])
                    (sample.request (JNumber "2") "tools/call"
                       (Some (JString "hello")))))
             eq_refl eq_refl).
  - exact (proj1 (proj2 (proj2 (dispatcher_error_codes sample.cmd_Run
                    sample.client_Do sample.extractJSONPath
                    (sample.server [sample.hello])
                    (sample.request (JNumber "3") "tools/call"
                       (sample.call_params "missing" "name" "World")))))
             {| mcp.Name := "missing";
                mcp.Arguments := Some [("name", JString "World")] |}
             eq_refl eq_refl eq_refl).
  - exact (proj1 (proj2 (proj2 (proj2 (proj2 (dispatcher_error_codes
                    sample.cmd_Run sample.client_Do sample.extractJSONPath
                    (sample.server [sample.hello])
                    (sample.request (JNumber "1") "ping" None))))
             (sample.dispatcher (sample.server [sample.hello]))
             (tunnel.frame "request" "r-1" sample.bad_method_payload)
             eq_refl))).
Defined.

(** C5 at the call of [hello], whose command exits with status 3. *)
Lemma isError_iff_nonzero_exit_witness :
  exists resp b,
    sample.dispatcher (sample.server [sample.hello])
      (sample.request (JNumber "1") "tools/call"
         (sample.call_params "hello" "name" "World"))
    = (Some resp, None)
    /\ tunnel.Error resp = None
    /\ result_member "isError" resp = Some (JBool b)
    /\ (b = true <->
        executor.ExitCode
          (mcp.invoke sample.cmd_Run sample.client_Do sample.extractJSONPath
             sample.hello (Some [("name", JString "World")])) <> 0%Z).
Proof.
  exact (isError_iff_nonzero_exit sample.cmd_Run sample.client_Do
           sample.extractJSONPath (sample.server [sample.hello])
           (sample.request (JNumber "1") "tools/call"
              (sample.call_params "hello" "name" "World"))
           {| mcp.Name := "hello";
              mcp.Arguments := Some [("name", JString "World")] |}
           sample.hello eq_refl eq_refl eq_refl).
Defined.

(** C6 as stated fails: the tool [count] declares two parameters, both
    under the name [n]; [Load] accepts it as it is; and tools/list shows
    one property for it, that of the second declaration. *)
Lemma repeated_name_gives_one_property :
  map config.param_Name (config.Parameters sample.count) = ["n"; "n"]
  /\ option_map config.Tools
       match config.Load sample.ReadFile sample.ExpandEnv
               sample.yaml_Unmarshal_count "gantz.yaml" with
       | inl cfg => Some cfg
       | inr _ => None
       end
     = Some [sample.count]
  /\ listed_properties
       (sample.dispatcher (sample.server [sample.count])
          (sample.request (JNumber "1") "tools/list" None)) 0
     = Some (JObject [("n", JObject [("type", JString "number");
                                     ("description", JString "second")])]).
Proof. repeat split; reflexivity. Qed.

(** C6 at the registry of [hello] and [count]: two entries; the names of
    [hello] are distinct, and the entry of [count] has one property. *)
Lemma tools_list_schema_witness :
  tunnel.req_Method (sample.request (JNumber "1") "tools/list" None) = "tools/list"
  /\ unique_parameter_names sample.hello
  /\ exists resp entries,
      sample.dispatcher (sample.server [sample.hello; sample.count])
        (sample.request (JNumber "1") "tools/list" None)
      = (Some resp, None)
      /\ result_member "tools" resp = Some (JArray entries)
      /\ List.length entries = 2
      /\ map (fun entry =>
                match member "inputSchema" entry with
                | Some schema =>
                    match member "properties" schema with
                    | Some (JObject properties) => keys properties
                    | _ => []
                    end
                | None => []
                end) entries
         = [["name"]; ["n"]].
Proof.
  split; [reflexivity|].
  split; [repeat constructor; simpl; intros []|].
  destruct (tools_list_schema sample.cmd_Run sample.client_Do
              sample.extractJSONPath
              (sample.server [sample.hello; sample.count])
              (sample.request (JNumber "1") "tools/list" None)
              eq_refl)
    as (resp & entries & Hresp & _ & Htools & Hlen & _).
  exists resp, entries. vm_compute in Hresp. injection Hresp as <-.
  vm_compute in Htools. injection Htools as <-.
  repeat split.
Defined.

(** C7 at the spec's scenario: the first frame is of type error. *)
Lemma Connect_starts_loops_after_handshake_witness :
  tunnel.msg_Type sample.error_frame <> "registered"
  /\ snd (snd (tunnel.Connect sample.client tunnel.DialOK
                 (tunnel.ReadOK sample.error_frame)))
     = Some "unexpected message type: error"
  /\ tunnel.conn (fst (tunnel.Connect sample.client tunnel.DialOK
                         (tunnel.ReadOK sample.error_frame)))
     = tunnel.ConnClosed
  /\ tunnel.started (fst (tunnel.Connect sample.client tunnel.DialOK
                            (tunnel.ReadOK sample.error_frame)))
     = [].
Proof.
  assert (Htype : tunnel.msg_Type sample.error_frame <> "registered")
    by discriminate.
  split; [exact Htype|].
  destruct (proj1 (Connect_starts_loops_after_handshake sample.client
                     sample.error_frame Htype))
    as (Herr & _ & Hconn & Hstarted).
  split; [exact Herr|]. split; [exact Hconn | exact Hstarted].
Defined.

(** C9 at the call of [get_weather], answered with a 404. *)
Lemma http_status_decides_exit_code_witness :
  sample.client_Do sample.get_weather (Some [("city", JString "Oslo")])
  = executor.Responded 404 "not found"
  /\ executor.ExitCode
       (executor.HTTPExecute sample.client_Do sample.extractJSONPath
          sample.get_weather (Some [("city", JString "Oslo")]))
     = 1%Z.
Proof.
  split; [reflexivity|].
  apply (proj1 (http_status_decides_exit_code sample.cmd_Run sample.client_Do
                  sample.extractJSONPath sample.get_weather
                  (Some [("city", JString "Oslo")]) 404 "not found" eq_refl)).
  lia.
Defined.

(** C10 at a command that exits with status 3 after writing a line to
    each stream: the output is the two lines with an empty line between
    them and no newline at the end. *)
Lemma Execute_merges_stdout_and_stderr_witness :
  sample.cmd_Run sample.hello (Some [("name", JString "World")])
  = {| executor.stdout := "Hello, World!" ++ bytes [10];
       executor.stderr := "warning" ++ bytes [10];
       executor.run_err := Some (executor.ExitError 3 "exit status 3") |}
  /\ executor.Output
       (executor.Execute sample.cmd_Run sample.hello
          (Some [("name", JString "World")]))
     = "Hello, World!" ++ bytes [10; 10] ++ "warning"
  /\ strings.HasSpaceSuffix
       (executor.Output
          (executor.Execute sample.cmd_Run sample.hello
             (Some [("name", JString "World")])))
     = false
  /\ exists before after,
      stdout_then_stderr ("Hello, World!" ++ bytes [10]) ("warning" ++ bytes [10])
      = before
          ++ executor.Output
               (executor.Execute sample.cmd_Run sample.hello
                  (Some [("name", JString "World")]))
          ++ after
      /\ only_space before /\ only_space after.
Proof.
  split; [reflexivity|].
  destruct (Execute_merges_stdout_and_stderr sample.cmd_Run sample.hello
              (Some [("name", JString "World")]) _ _ _ eq_refl)
    as (_ & _ & Hsuffix & Hcut).
  split; [reflexivity|]. split; [exact Hsuffix | exact Hcut].
Defined.

(** The spec's scenario: [hello] called with the name World answers with
    the one text block "Hello, World!" and no error flag. *)
Example hello_world :
  mcp.HandleRequest sample.quiet_Run sample.client_Do sample.extractJSONPath
    (sample.server [sample.hello])
    (sample.request (JNumber "1") "tools/call"
       (sample.call_params "hello" "name" "World"))
  = mcp.result_response (JNumber "1")
      (JObject
         [("content",
           JArray [JObject [("type", JString "text");
                            ("text", JString "Hello, World!")]]);
          ("isError", JBool false)]).
Proof. reflexivity. Qed.

(** White space outside ASCII is trimmed as well: here a no-break space
    at the end and a line separator at the start. *)
Example TrimSpace_unicode :
  strings.TrimSpace (bytes [226; 128; 168; 32] ++ "a b" ++ bytes [10; 194; 160])
  = "a b".
Proof. reflexivity. Qed.

(** The float64 of some literals: 0.1 is 0x1.999999999999ap-4; 2^53 + 1
    and 2^53 + 3 lie halfway between two float64 and go to the even
    mantissa; the largest float64, and the first literal of 17 digits
    beyond its range; the smallest float64, and a number that is nearer
    to zero; minus zero. *)
Example ParseFloat_values :
  strconv.ParseFloat "0.1" = Some (S754_finite false 7205759403792794 (-56))
  /\ strconv.ParseFloat "9007199254740993"
     = Some (S754_finite false 4503599627370496 1)
  /\ strconv.ParseFloat "9007199254740995"
     = Some (S754_finite false 4503599627370498 1)
  /\ strconv.ParseFloat "1.7976931348623157e308"
     = Some (S754_finite false 9007199254740991 971)
  /\ strconv.ParseFloat "1.7976931348623159e308" = None
  /\ strconv.ParseFloat "5e-324" = Some (S754_finite false 1 (-1074))
  /\ strconv.ParseFloat "2e-324" = Some (S754_zero false)
  /\ strconv.ParseFloat "-0" = Some (S754_zero true).
Proof. repeat split; vm_compute; reflexivity. Qed.

(** A number of the arguments that has no float64 makes the params of a
    tools/call invalid. *)
Example argument_out_of_range :
  is_rpc_error
    (sample.dispatcher (sample.server [sample.hello])
       (sample.request (JNumber "1") "tools/call"
          (Some (JObject [("name", JString "hello");
                          ("arguments", JObject [("name", JNumber "1e400")])]))))
    (JNumber "1") (-32602) "Invalid params".
Proof. vm_compute. reflexivity. Qed.

(** A member key selects a field whatever its case. *)
Example member_keys_fold :
  option_map tunnel.req_Method
    (tunnel.unmarshalRequest
       (Some (JObject [("ID", JNumber "1"); ("Method", JString "ping")])))
  = Some "ping".
Proof. reflexivity. Qed.

(** With two parameters of one name the properties map keeps the later
    one: the invariant on names is what gives one property each. *)
Example later_declaration_replaces_earlier :
  let p1 := {| config.param_Name := "n"; config.param_Type := "string";
               config.param_Description := "first"; config.param_Required := false;
               config.param_Default := "" |} in
  let p2 := {| config.param_Name := "n"; config.param_Type := "number";
               config.param_Description := "second"; config.param_Required := false;
               config.param_Default := "" |} in
  fst (mcp.schema_loop [p1; p2] [] []) = [("n", mcp.property p2)].
Proof. reflexivity. Qed.

End Evaluations.

(** * Further properties of the code *)

Section SessionFacts.

Import tunnel observe.


Lemma handleMessages_app (c : Client) (msgs : list TunnelMessage)
  (tail : list ReadResult) :
  handleMessages c (map ReadOK msgs ++ tail)
  = (fst (handleMessages c tail),
     (flat_map (on_message c) msgs ++ snd (handleMessages c tail))%list).
Proof.
  induction msgs as [|msg msgs IH]; simpl.
  - now destruct (handleMessages c tail).
  - rewrite IH. now rewrite app_assoc.
Qed.

(** X2.  The read loop ends at the first read that fails: what the
    connection would have delivered afterwards has no effect. *)
Theorem read_loop_stops_at_first_failure (c : Client)
  (msgs : list TunnelMessage) (e : ReadError) (rest : list ReadResult) :
  handleMessages c (map ReadOK msgs ++ ReadFailed e :: rest)
  = handleMessages c (map ReadOK msgs ++ [ReadFailed e]).
Proof.
  rewrite !handleMessages_app. simpl.
  now destruct (IsCloseError e [CloseNormalClosure; CloseGoingAway]).
Qed.

Lemma on_message_effects (c : Client) (msg : TunnelMessage) :
  spawned (on_message c msg) = (if has_type "request" msg then [msg] else [])
  /\ written (on_message c msg) = (if has_type "ping" msg then [sendPong] else [])
  /\ called (on_message c msg)
     = (if onClientConnected c && reports_client msg then [ClientIP msg] else []).
Proof.
  unfold on_message, reports_client, has_type.
  destruct (String.eqb_spec (msg_Type msg) "request") as [Hreq|_].
  { rewrite Hreq. cbn. rewrite andb_false_r. auto. }
  destruct (String.eqb_spec (msg_Type msg) "ping") as [Hping|_].
  { rewrite Hping. cbn. rewrite andb_false_r. auto. }
  destruct (String.eqb (msg_Type msg) "client_connected"); cbn.
  - destruct (onClientConnected c), (String.eqb (ClientIP msg) ""); auto.
  - rewrite andb_false_r. auto.
Qed.

Lemma tail_effects (c : Client) (tail : list ReadResult) :
  tail = [] \/ (exists e rest, tail = ReadFailed e :: rest) ->
  spawned (snd (handleMessages c tail)) = []
  /\ written (snd (handleMessages c tail)) = []
  /\ called (snd (handleMessages c tail)) = [].
Proof.
  intros [->|(e & rest & ->)]; simpl; [auto|].
  now destruct (IsCloseError e [CloseNormalClosure; CloseGoingAway]).
Qed.

(** X3.  Up to the end of the loop, or as far as it has read, the loop
    starts a handler for each request envelope and for nothing else, in
    the order of arrival; it writes one pong for each ping and nothing
    else; and it reports the address of each client_connected envelope
    that has one, provided a callback is set. *)
Theorem read_loop_dispatches_by_type (c : Client) (msgs : list TunnelMessage)
  (tail : list ReadResult) :
  tail = [] \/ (exists e rest, tail = ReadFailed e :: rest) ->
  let effects := snd (handleMessages c (map ReadOK msgs ++ tail)) in
  spawned effects = filter (has_type "request") msgs
  /\ written effects = map (fun _ => sendPong) (filter (has_type "ping") msgs)
  /\ called effects
     = (if onClientConnected c
        then map ClientIP (filter reports_client msgs) else []).
Proof.
  intros Htail. cbv zeta. rewrite handleMessages_app. cbn [snd].
  destruct (tail_effects c tail Htail) as (Hs & Hw & Hc).
  unfold spawned, written, called in *.
  rewrite !flat_map_app, Hs, Hw, Hc, !app_nil_r. clear Hs Hw Hc Htail.
  induction msgs as [|msg msgs IH]; simpl.
  - now destruct (onClientConnected c).
  - rewrite !flat_map_app.
    destruct (on_message_effects c msg) as (Hs & Hw & Hc).
    unfold spawned, written, called in Hs, Hw, Hc. rewrite Hs, Hw, Hc.
    destruct IH as (IHs & IHw & IHc). rewrite IHs, IHw, IHc.
    repeat split.
    + now destruct (has_type "request" msg).
    + now destruct (has_type "ping" msg).
    + destruct (onClientConnected c); simpl; [|reflexivity].
      now destruct (reports_client msg).
Qed.

(** X4.  The read loop touches nothing of the client but [done]: when it
    ends the connection is as it was, not closed, and nothing is started
    anew. *)
Theorem read_loop_leaves_connection (c : Client) (reads : list ReadResult) :
  conn (fst (handleMessages c reads)) = conn c
  /\ tunnelURL (fst (handleMessages c reads)) = tunnelURL c
  /\ started (fst (handleMessages c reads)) = started c
  /\ (done c = true -> done (fst (handleMessages c reads)) = true).
Proof.
  induction reads as [|[msg|e] reads IH]; simpl.
  - auto.
  - destruct (handleMessages c reads). exact IH.
  - destruct (IsCloseError e [CloseNormalClosure; CloseGoingAway]); simpl; auto.
Qed.

(** X5.  A [Connect] that fails returns no URL; it leaves the client as
    it was when the dial failed, and has closed the connection when the
    dial succeeded.  The dial error reads "version outdated" exactly when
    the relay answered 426, and otherwise wraps the error of the dial. *)
Theorem Connect_failure_policy (c : Client) (dial : DialResult)
  (first : ReadResult) :
  snd (snd (Connect c dial first)) <> None ->
  fst (snd (Connect c dial first)) = ""
  /\ tunnelURL (fst (Connect c dial first)) = tunnelURL c
  /\ match dial with
     | DialOK => conn (fst (Connect c dial first)) = ConnClosed
     | DialFailed status err =>
         fst (Connect c dial first) = c
         /\ snd (snd (Connect c dial first))
            = Some (if match status with
                       | Some code => Z.eqb code 426
                       | None => false
                       end
                    then "version outdated - run: gantz update"
                    else "dial relay: " ++ err)
     end.
Proof.
  unfold Connect. destruct dial as [|[code|] err].
  - destruct first as [msg|e]; [|cbn; auto].
    destruct (String.eqb (msg_Type msg) "registered"); cbn; [|auto].
    intros H. now contradiction H.
  - unfold StatusUpgradeRequired. destruct (Z.eqb code 426); cbn; auto.
  - cbn. auto.
Qed.

(** X6.  A session from a fresh client: after a handshake that succeeds,
    [URL] is the URL of the registered frame and stays so, and [Wait] is
    blocked while the reads give envelopes and returns nil once a read
    has failed. *)
Theorem session_lifecycle (relay version : string) (h : MCPHandler)
  (count : Z) (registered : TunnelMessage) (msgs : list TunnelMessage)
  (e : ReadError) (rest : list ReadResult) :
  msg_Type registered = "registered" ->
  let c := fst (Connect (NewClient relay h version count) DialOK
                  (ReadOK registered)) in
  snd (Connect (NewClient relay h version count) DialOK (ReadOK registered))
  = (TunnelURL registered, None)
  /\ Wait c = None
  /\ Wait (fst (handleMessages c (map ReadOK msgs))) = None
  /\ Wait (fst (handleMessages c (map ReadOK msgs ++ ReadFailed e :: rest)))
     = Some None
  /\ URL (fst (handleMessages c (map ReadOK msgs ++ ReadFailed e :: rest)))
     = TunnelURL registered.
Proof.
  intros Htype. cbv zeta. unfold Connect. rewrite Htype. cbn [String.eqb Ascii.eqb Bool.eqb negb fst snd].
  rewrite handleMessages_running.
  match goal with
  | |- context [handleMessages ?c1 (map ReadOK msgs ++ _)] =>
      destruct (handleMessages_ended c1 msgs e rest) as (Hc & _); rewrite Hc
  end.
  cbn. repeat split.
Qed.

(** X7.  The keepalive loop writes one pong for each tick, keeps running
    while the writes succeed, and returns at the first write that fails
    or when [done] is closed; later rounds write nothing. *)
Theorem keepalive_stops_on_failed_write (n : nat) (err : error)
  (rest : list Wakeup) :
  keepalive (repeat (Tick None) n) = (repeat sendPong n, false)
  /\ keepalive (repeat (Tick None) n ++ Tick (Some err) :: rest)
     = (repeat sendPong (S n), true)
  /\ keepalive (repeat (Tick None) n ++ DoneClosed :: rest)
     = (repeat sendPong n, true).
Proof.
  induction n as [|n (IH1 & IH2 & IH3)]; [repeat split|].
  cbn [repeat app keepalive]. rewrite IH1, IH2, IH3. repeat split.
Qed.

End SessionFacts.

Section InvocationFacts.

Import json observe.

Variables cmd_Run cmd_Run' : config.Tool -> executor.ArgMap -> executor.CmdOutcome.
Variables client_Do client_Do' : config.Tool -> executor.ArgMap -> executor.HTTPOutcome.
Variables extractJSONPath extractJSONPath' : string -> string -> option string.

Abbreviation HandleRequest := (mcp.HandleRequest cmd_Run client_Do extractJSONPath).
Abbreviation HandleRequest' := (mcp.HandleRequest cmd_Run' client_Do' extractJSONPath').
Abbreviation invoke := (mcp.invoke cmd_Run client_Do extractJSONPath).
Abbreviation invoke' := (mcp.invoke cmd_Run' client_Do' extractJSONPath').

(** X8.  The answer to a request depends on the machine and the network
    only through the one invocation the request leads to, if any: two
    environments in which that invocation gives the same result give the
    same answer, and a request that leads to none (any method but
    tools/call, params that do not decode, a name the registry lacks) is
    answered alike everywhere. *)
Theorem answer_depends_on_one_invocation (s : mcp.Server)
  (req : tunnel.MCPRequest) :
  match invocation s req with
  | Some (tool, args) => invoke tool args = invoke' tool args
  | None => True
  end ->
  HandleRequest s req = HandleRequest' s req.
Proof.
  unfold invocation, mcp.HandleRequest, mcp.handleToolsCall.
  destruct (String.eqb (tunnel.req_Method req) "initialize"); [reflexivity|].
  destruct (String.eqb (tunnel.req_Method req) "tools/list"); [reflexivity|].
  destruct (String.eqb (tunnel.req_Method req) "tools/call"); [|reflexivity].
  destruct (mcp.unmarshalParams (tunnel.req_Params req)) as [params|];
    [|reflexivity].
  destruct (config.GetTool (mcp.server_config s) (mcp.Name params)) as [tool|];
    [|reflexivity].
  now intros ->.
Qed.

End InvocationFacts.

Section RegistryFacts.

Import json observe.

(** X9.  [GetTool] returns the first tool of the registry that has the
    name, and nil exactly when no tool has it: of two tools with one name
    only the first can be called. *)
Theorem GetTool_returns_first_match (c : config.Config) (name : string) :
  (forall tool,
      config.GetTool c name = Some tool ->
      config.tool_Name tool = name
      /\ exists before after,
          config.Tools c = (before ++ tool :: after)%list
          /\ ~ In name (map config.tool_Name before))
  /\ (config.GetTool c name = None
      <-> ~ In name (map config.tool_Name (config.Tools c))).
Proof.
  unfold config.GetTool.
  pose proof (find_tool_first (config.Tools c) name) as H.
  destruct (config.find_tool (config.Tools c) name) as [tool|].
  - destruct H as (Hname & before & after & Htools & Hfresh). split.
    + intros t [= <-]. split; [exact Hname|]. now exists before, after.
    + split; [discriminate|]. intros Hnot. exfalso. apply Hnot.
      rewrite Htools, map_app. apply in_or_app. right. left. exact Hname.
  - split; [discriminate|]. tauto.
Qed.

Lemma entry_names_of_tools (tools : list config.Tool) :
  entry_names (map mcp.tool_entry tools) = map config.tool_Name tools.
Proof.
  induction tools as [|t tools IH]; [reflexivity|].
  cbn [map entry_names flat_map] in *. unfold entry_names in IH. rewrite IH.
  reflexivity.
Qed.

(** X10.  Whatever the names of the parameters are, the properties of a
    schema are a map: no key twice, the keys being the declared names, and
    under each name the entry of the last parameter declared with it, so
    that of parameters that share a name only the last is shown. *)
Theorem properties_follow_last_declaration (tool : config.Tool) :
  exists schema properties,
    mcp.inputSchema tool = JObject schema
    /\ lookup "properties" schema = Some (JObject properties)
    /\ NoDup (keys properties)
    /\ (forall name,
          In name (keys properties)
          <-> In name (map config.param_Name (config.Parameters tool)))
    /\ forall name,
        lookup name properties
        = option_map mcp.property (last_declared name (config.Parameters tool)).
Proof.
  destruct (inputSchema_members tool) as (schema & Hschema & _ & Hprops & _).
  exists schema, (fst (mcp.schema_loop (config.Parameters tool) [] [])).
  destruct (schema_loop_keys (config.Parameters tool) [] [] (NoDup_nil _))
    as (Hnd & Hkeys).
  repeat split; auto.
  - intros Hin. apply Hkeys in Hin as [[]|Hin]. exact Hin.
  - intros Hin. apply Hkeys. now right.
  - intros name. rewrite properties_last_declaration_wins.
    now destruct (last_declared name (config.Parameters tool)).
Qed.

End RegistryFacts.

Section DispatcherFacts.

Import json observe.

Variable cmd_Run : config.Tool -> executor.ArgMap -> executor.CmdOutcome.
Variable client_Do : config.Tool -> executor.ArgMap -> executor.HTTPOutcome.
Variable extractJSONPath : string -> string -> option string.

Abbreviation HandleRequest := (mcp.HandleRequest cmd_Run client_Do extractJSONPath).
Abbreviation invoke := (mcp.invoke cmd_Run client_Do extractJSONPath).

Lemma tools_call_response (s : mcp.Server) (req : tunnel.MCPRequest)
  (tool : config.Tool) (args : executor.ArgMap) :
  invocation s req = Some (tool, args) ->
  HandleRequest s req
  = mcp.result_response (tunnel.req_ID req)
      (JObject
         [("content", mcp.content (invoke tool args));
          ("isError", JBool (negb (Z.eqb (executor.ExitCode (invoke tool args)) 0)))]).
Proof.
  unfold invocation, mcp.HandleRequest, mcp.handleToolsCall.
  destruct (String.eqb_spec (tunnel.req_Method req) "tools/call") as [->|];
    [|discriminate].
  cbn [String.eqb Ascii.eqb Bool.eqb].
  destruct (mcp.unmarshalParams (tunnel.req_Params req)) as [params|];
    [|discriminate].
  destruct (config.GetTool (mcp.server_config s) (mcp.Name params)) as [t|];
    [|discriminate].
  now intros [= -> ->].
Qed.

(** X11.  The content of the answer to a tool call is one text block.
    Its text is the output of the invocation, also when the invocation
    failed, unless the invocation reports an error and has no output: then
    the text is "Error: " and the error. *)
Theorem tool_call_content_is_one_text_block (s : mcp.Server)
  (req : tunnel.MCPRequest) (tool : config.Tool) (args : executor.ArgMap) :
  invocation s req = Some (tool, args) ->
  exists resp text,
    HandleRequest s req = (Some resp, None)
    /\ result_member "content" resp = Some (JArray [text_block text])
    /\ (executor.Output (invoke tool args) <> "" ->
        text = executor.Output (invoke tool args))
    /\ (executor.Error (invoke tool args) = None ->
        text = executor.Output (invoke tool args))
    /\ (forall err,
          executor.Output (invoke tool args) = "" ->
          executor.Error (invoke tool args) = Some err ->
          text = "Error: " ++ err).
Proof.
  intros Hinv. rewrite (tools_call_response _ _ _ _ Hinv).
  unfold mcp.result_response, mcp.content, text_block.
  destruct (executor.Error (invoke tool args)) as [err|].
  - destruct (String.eqb_spec (executor.Output (invoke tool args)) "") as [Hout|Hout].
    + eexists _, _. split; [reflexivity|]. split; [reflexivity|].
      split; [intros H; contradiction|]. split; [discriminate|].
      now intros err' _ [= ->].
    + eexists _, _. split; [reflexivity|]. split; [reflexivity|].
      split; [reflexivity|]. split; [reflexivity|].
      intros err' H. contradiction.
  - eexists _, _. split; [reflexivity|]. split; [reflexivity|].
    split; [reflexivity|]. split; [reflexivity|]. discriminate.
Qed.

(** X12.  For an HTTP tool the text of the answer is always the output of
    the executor: an exchange that fails already describes the failure in
    its output, which is then not empty, and its exit code is -1 exactly
    in that case. *)
Theorem http_failure_is_described_in_output (tool : config.Tool)
  (args : executor.ArgMap) :
  let result := executor.HTTPExecute client_Do extractJSONPath tool args in
  mcp.content result = JArray [text_block (executor.Output result)]
  /\ (executor.Error result <> None <-> executor.ExitCode result = (-1)%Z)
  /\ (executor.Error result <> None -> executor.Output result <> "")
  /\ (executor.ExitCode result = (-1)%Z \/ executor.ExitCode result = 0%Z
      \/ executor.ExitCode result = 1%Z).
Proof.
  cbv zeta. unfold executor.HTTPExecute, mcp.content, text_block.
  destruct (client_Do tool args) as [err|err|err|status body]; cbn.
  1-3: repeat split; try discriminate; auto.
  destruct (status >=? 400)%Z; repeat split; try discriminate; auto;
    intros H; now contradiction H.
Qed.

Lemma payload_members_of_response (rid : string) (r : tunnel.MCPResponse) :
  payload_member "jsonrpc" (tunnel.sendResponse rid (Some r))
  = Some (JString (tunnel.resp_JSONRPC r))
  /\ payload_member "result" (tunnel.sendResponse rid (Some r))
     = wire_id (tunnel.Result r)
  /\ payload_member "error" (tunnel.sendResponse rid (Some r))
     = option_map tunnel.marshalError (tunnel.Error r).
Proof.
  unfold payload_member, tunnel.sendResponse, tunnel.frame, tunnel.marshalResponse.
  cbn [tunnel.Payload].
  destruct (tunnel.resp_ID r), (tunnel.Result r), (tunnel.Error r);
    repeat split; reflexivity.
Qed.

(** X13.  Every frame that answers a request envelope through the
    dispatcher, whether the payload decodes or not, says jsonrpc 2.0 and
    has exactly one of the members result and error. *)
Theorem response_has_result_or_error (s : mcp.Server)
  (msg : tunnel.TunnelMessage) :
  let f := tunnel.handleRequest (HandleRequest s) msg in
  payload_member "jsonrpc" f = Some (JString "2.0")
  /\ (payload_member "result" f = None <-> payload_member "error" f <> None).
Proof.
  cbv zeta. unfold tunnel.handleRequest.
  destruct (tunnel.unmarshalRequest (tunnel.Payload msg)) as [req|].
  - destruct (HandleRequest_shape cmd_Run client_Do extractJSONPath s req)
      as (result & err & -> & Hkind).
    destruct (payload_members_of_response (tunnel.RequestID msg)
                {| tunnel.resp_JSONRPC := "2.0";
                   tunnel.resp_ID := tunnel.req_ID req;
                   tunnel.Result := result; tunnel.Error := err |})
      as (-> & -> & ->).
    cbn [tunnel.resp_JSONRPC tunnel.Result tunnel.Error].
    split; [reflexivity|].
    destruct Hkind as [[-> Hres] | (-> & code & message & -> & _)]; cbn.
    + split; [|intros H; now contradiction H].
      destruct result; cbn; try discriminate. now contradiction Hres.
    + split; [discriminate | reflexivity].
  - split; [reflexivity|]. cbn. split; [discriminate | reflexivity].
Qed.

(** X14.  tools/list and tools/call read one registry: the names that
    tools/list shows are the names of the registry, in order, and a
    tools/call whose params decode is executed exactly when its name is
    among them, and is otherwise answered with the not-found error. *)
Theorem call_runs_what_list_shows (s : mcp.Server)
  (list_req call_req : tunnel.MCPRequest) (params : mcp.toolCallParams) :
  tunnel.req_Method list_req = "tools/list" ->
  tunnel.req_Method call_req = "tools/call" ->
  mcp.unmarshalParams (tunnel.req_Params call_req) = Some params ->
  listed_names (HandleRequest s list_req)
  = map config.tool_Name (config.Tools (mcp.server_config s))
  /\ (In (mcp.Name params) (listed_names (HandleRequest s list_req))
      <-> exists tool, invocation s call_req = Some (tool, mcp.Arguments params))
  /\ (~ In (mcp.Name params) (listed_names (HandleRequest s list_req))
      <-> is_rpc_error (HandleRequest s call_req) (tunnel.req_ID call_req)
            (-32602) ("Tool not found: " ++ mcp.Name params)).
Proof.
  intros Hlist Hcall Hdec.
  assert (Hnames : listed_names (HandleRequest s list_req)
                   = map config.tool_Name (config.Tools (mcp.server_config s))).
  { unfold mcp.HandleRequest. rewrite Hlist. cbn [String.eqb Ascii.eqb Bool.eqb].
    unfold mcp.handleToolsList, mcp.result_response, listed_names, result_member.
    cbn. apply entry_names_of_tools. }
  rewrite Hnames. split; [reflexivity|].
  pose proof (find_tool_first (config.Tools (mcp.server_config s)) (mcp.Name params))
    as Hfind.
  unfold invocation, is_rpc_error, mcp.HandleRequest, mcp.handleToolsCall.
  rewrite Hcall, Hdec. cbn [String.eqb Ascii.eqb Bool.eqb].
  unfold config.GetTool.
  destruct (config.find_tool (config.Tools (mcp.server_config s)) (mcp.Name params))
    as [tool|].
  - assert (Hin : In (mcp.Name params)
                    (map config.tool_Name (config.Tools (mcp.server_config s)))).
    { destruct Hfind as (Hname & before & after & -> & _).
      rewrite map_app. apply in_or_app. right. left. exact Hname. }
    split.
    + split; [intros _; now exists tool | intros _; exact Hin].
    + split; [intros Hnot; now contradiction Hnot | discriminate].
  - assert (Hnot : ~ In (mcp.Name params)
                     (map config.tool_Name (config.Tools (mcp.server_config s))))
      by exact Hfind.
    split.
    + split; [intros Hin; now contradiction Hnot | intros [tool H]; discriminate].
    + split; [reflexivity | intros _; exact Hnot].
Qed.

(** X15.  The local HTTP endpoint answers only POST, with 405 for any
    other method and 400 for a body that does not decode, in both cases
    without reaching the dispatcher; a body that decodes is answered with
    status 200 and the JSON that the tunnel sends as payload for the same
    request. *)
Theorem local_endpoint_answers_as_tunnel (s : mcp.Server) (method rid : string)
  (body : RawMessage) :
  (method <> "POST" ->
   mcp.handleHTTP cmd_Run client_Do extractJSONPath s method body
   = mcp.http_Error "Method not allowed" 405)
  /\ (tunnel.unmarshalRequest body = None ->
      mcp.handleHTTP cmd_Run client_Do extractJSONPath s "POST" body
      = mcp.http_Error "Invalid JSON" 400)
  /\ (tunnel.unmarshalRequest body <> None ->
      exists payload,
        tunnel.Payload
          (tunnel.handleRequest (HandleRequest s)
             (tunnel.frame "request" rid body)) = Some payload
        /\ mcp.handleHTTP cmd_Run client_Do extractJSONPath s "POST" body
           = {| mcp.reply_Status := 200;
                mcp.reply_ContentType := "application/json";
                mcp.reply_Body := mcp.JSONLine payload |}).
Proof.
  unfold mcp.handleHTTP. split; [|split].
  - intros Hm. destruct (String.eqb_spec method "POST"); [contradiction|reflexivity].
  - intros ->. reflexivity.
  - intros Hdec. cbn [String.eqb Ascii.eqb Bool.eqb negb].
    unfold tunnel.handleRequest. cbn [tunnel.Payload tunnel.frame].
    destruct (tunnel.unmarshalRequest body) as [req|]; [|now contradiction Hdec].
    destruct (HandleRequest_shape cmd_Run client_Do extractJSONPath s req)
      as (result & err & -> & _).
    eexists. split; reflexivity.
Qed.

End DispatcherFacts.

Section ExecutorFacts.

Import json observe.

Variable cmd_Run : config.Tool -> executor.ArgMap -> executor.CmdOutcome.
Variable client_Do : config.Tool -> executor.ArgMap -> executor.HTTPOutcome.
Variable extractJSONPath : string -> string -> option string.
Variable Sprint : Value -> string.

Lemma Execute_output (tool : config.Tool) (args : executor.ArgMap) :
  executor.Output (executor.Execute cmd_Run tool args)
  = strings.TrimSpace
      (stdout_then_stderr (executor.stdout (cmd_Run tool args))
         (executor.stderr (cmd_Run tool args))).
Proof.
  unfold executor.Execute, stdout_then_stderr.
  destruct (cmd_Run tool args) as [out err e].
  cbn [executor.stdout executor.stderr executor.run_err].
  assert (Hout :
    (if (0 <? String.length err)%nat
     then (if negb (String.eqb out "") then out ++ bytes [10] else out) ++ err
     else out)
    = (if negb (String.eqb out "") && negb (String.eqb err "")
       then out ++ bytes [10] ++ err else out ++ err)).
  { destruct err as [|c err].
    - cbn [String.length Nat.ltb Nat.leb]. rewrite andb_false_r.
      now rewrite append_empty_r.
    - cbn [String.length Nat.ltb Nat.leb]. rewrite andb_true_r.
      destruct (negb (String.eqb out "")); [apply append_assoc | reflexivity]. }
  rewrite Hout. destruct e as [[code desc|desc]|]; reflexivity.
Qed.

(** X16.  The output of a process result neither starts nor ends with
    white space and is a part of the text of stdout followed by stderr;
    the same holds for the output of an HTTP result when a response
    arrived, as a part of the body or of what was extracted from it.
    Trimming such an output again changes nothing. *)
Theorem outputs_are_trimmed (tool : config.Tool) (args : executor.ArgMap) :
  (let out := executor.Output (executor.Execute cmd_Run tool args) in
   strings.HasSpacePrefix out = false
   /\ strings.HasSpaceSuffix out = false
   /\ strings.TrimSpace out = out
   /\ exists before after,
       stdout_then_stderr (executor.stdout (cmd_Run tool args))
         (executor.stderr (cmd_Run tool args))
       = before ++ out ++ after)
  /\ forall status body,
      client_Do tool args = executor.Responded status body ->
      let out := executor.Output
                   (executor.HTTPExecute client_Do extractJSONPath tool args) in
      strings.HasSpacePrefix out = false
      /\ strings.HasSpaceSuffix out = false
      /\ strings.TrimSpace out = out.
Proof.
  split.
  - cbv zeta. rewrite Execute_output.
    destruct (TrimSpace_trims
                (stdout_then_stderr (executor.stdout (cmd_Run tool args))
                   (executor.stderr (cmd_Run tool args))))
      as (Hl & Hr & Hpart).
    repeat split; auto. now apply TrimSpace_fixes_trimmed.
  - intros status body Hdo. cbv zeta. unfold executor.HTTPExecute. rewrite Hdo.
    cbn [executor.Output].
    match goal with
    | |- context [strings.TrimSpace ?x] =>
        destruct (TrimSpace_trims x) as (Hl & Hr & _)
    end.
    repeat split; auto. now apply TrimSpace_fixes_trimmed.
Qed.

(** X17.  A command that fails without writing anything, or only white
    space, is answered with the error of the run as text; when the
    failure is not an exit status the answer is flagged as an error. *)
Theorem failed_command_without_output (s : mcp.Server) (req : tunnel.MCPRequest)
  (tool : config.Tool) (args : executor.ArgMap) (out err : string)
  (e : executor.RunError) :
  invocation s req = Some (tool, args) ->
  config.IsHTTP tool = false ->
  cmd_Run tool args
  = {| executor.stdout := out; executor.stderr := err;
       executor.run_err := Some e |} ->
  strings.TrimSpace (stdout_then_stderr out err) = "" ->
  exists resp,
    mcp.HandleRequest cmd_Run client_Do extractJSONPath s req = (Some resp, None)
    /\ result_member "content" resp
       = Some (JArray [text_block ("Error: " ++ executor.run_error_desc e)])
    /\ result_member "isError" resp
       = Some (JBool (match e with
                      | executor.ExitError code _ => negb (Z.eqb code 0)
                      | executor.OtherRunError _ => true
                      end)).
Proof.
  intros Hinv Hkind Hrun Hempty.
  rewrite (tools_call_response _ _ _ _ _ _ _ Hinv).
  unfold mcp.invoke. rewrite Hkind.
  pose proof (Execute_output tool args) as Hout. rewrite Hrun in Hout.
  cbn [executor.stdout executor.stderr] in Hout. rewrite Hempty in Hout.
  unfold mcp.content, mcp.result_response, text_block. rewrite Hout.
  unfold executor.Execute. rewrite Hrun. cbn [executor.run_err].
  destruct e as [code desc|desc]; cbn; eexists; repeat split.
Qed.

Lemma stripPrefix_self (p rest : string) : strings.stripPrefix p (p ++ rest) = Some rest.
Proof.
  induction p as [|a p IH]; simpl; [reflexivity|].
  now rewrite Ascii.eqb_refl.
Qed.

Lemma replace_from_skip (old new p rest : string) :
  strings.replace_from old new (String.length p) (p ++ rest)
  = strings.replace_from old new 0 rest.
Proof.
  induction p as [|a p IH]; simpl; [|exact IH].
  destruct rest; reflexivity.
Qed.

Lemma replace_from_absent (old new s : string) :
  strings.Contains s old = false -> strings.replace_from old new 0 s = s.
Proof.
  induction s as [|c s IH]; simpl; [reflexivity|].
  destruct (strings.stripPrefix old (String c s)); [discriminate|].
  intros H. now rewrite (IH H).
Qed.

Lemma replace_from_no_brace (old' new before rest : string) :
  no_brace before = true ->
  strings.replace_from (String "{"%char old') new 0 (before ++ rest)
  = before ++ strings.replace_from (String "{"%char old') new 0 rest.
Proof.
  induction before as [|c before IH]; intros Hnb; [reflexivity|].
  cbn [no_brace] in Hnb. apply andb_prop in Hnb as [Hc Hnb].
  cbn [append strings.replace_from strings.stripPrefix].
  rewrite Ascii.eqb_sym. apply negb_true_iff in Hc. rewrite Hc.
  now rewrite (IH Hnb).
Qed.

(** X18.  [expandArgs] leaves a template as it is when it mentions none
    of the arguments, in whatever order the arguments are visited: a
    placeholder for which no argument is given stays in the text. *)
Theorem expandArgs_leaves_unmentioned (template : string)
  (visited : list (string * Value)) :
  Forall (fun kv => strings.Contains template (executor.placeholder (fst kv)) = false)
    visited ->
  executor.expandArgs Sprint template visited = template.
Proof.
  induction visited as [|[k v] rest IH]; intros Hall; [reflexivity|].
  inversion Hall as [|? ? Hk Hrest]; subst. cbn [executor.expandArgs].
  unfold strings.ReplaceAll. cbn [executor.placeholder append String.eqb].
  cbn [fst] in Hk. unfold executor.placeholder in Hk. cbn [append] in Hk.
  rewrite (replace_from_absent _ _ _ Hk). now apply IH.
Qed.

Lemma replace_from_at (old new rest : string) :
  old <> "" ->
  strings.replace_from old new 0 (old ++ rest)
  = new ++ strings.replace_from old new 0 rest.
Proof.
  destruct old as [|a old']; [intros H; now contradiction H|]. intros _.
  cbn [append strings.replace_from].
  change (String a (old' ++ rest)) with (String a old' ++ rest).
  rewrite stripPrefix_self. f_equal.
  replace (String.length (String a old') - 1)%nat with (String.length old')
    by (simpl; lia).
  apply replace_from_skip.
Qed.

(** X19.  With one argument [k], a template whose only braces are those
    of one placeholder for [k] is expanded to the template with the
    printed value in the place of the placeholder. *)
Theorem expandArgs_fills_placeholder (before after k : string) (v : Value) :
  no_brace before = true ->
  no_brace after = true ->
  executor.expandArgs Sprint (before ++ executor.placeholder k ++ after) [(k, v)]
  = before ++ Sprint v ++ after.
Proof.
  intros Hb Ha. cbn [executor.expandArgs]. unfold strings.ReplaceAll.
  unfold executor.placeholder. cbn [append String.eqb].
  rewrite (replace_from_no_brace _ _ _ _ Hb). f_equal.
  change (String "{" (String "{" ((k ++ "}}") ++ after)))
    with (String "{" (String "{" (k ++ "}}")) ++ after).
  rewrite replace_from_at by discriminate. f_equal.
  pose proof (replace_from_no_brace (String "{" (k ++ "}}")) (Sprint v) after "" Ha) as H.
  rewrite !append_empty_r in H. exact H.
Qed.

End ExecutorFacts.

Section LoadFacts.

Import config observe.

Variable ReadFile : string -> ReadFileResult.
Variable ExpandEnv : string -> string.
Variable yaml_Unmarshal : string -> Config + string.

Lemma validate_params_accepts (tool : string) (params : list Param) :
  forall j,
    Forall (fun p => param_Name p <> "") params ->
    exists params', validate_params tool j params = inl params'.
Proof.
  induction params as [|p params IH]; intros j Hall; simpl; [now eexists|].
  inversion Hall as [|? ? Hp Hrest]; subst.
  destruct (String.eqb_spec (param_Name p) ""); [contradiction|].
  destruct (IH (S j) Hrest) as (params' & ->). now eexists.
Qed.

Lemma validate_params_result (tool : string) (params : list Param) :
  forall j params',
    validate_params tool j params = inl params' ->
    Forall (fun p => param_Name p <> "") params
    /\ Forall (fun p => param_Name p <> "" /\ param_Type p <> "") params'
    /\ Forall2 same_parameter params params'.
Proof.
  induction params as [|p params IH]; intros j params'; simpl.
  - intros [= <-]. repeat split; constructor.
  - destruct (String.eqb_spec (param_Name p) "") as [|Hname]; [discriminate|].
    destruct (validate_params tool (S j) params) as [rest|] eqn:Hrest;
      [|discriminate].
    intros [= <-]. destruct (IH _ _ Hrest) as (Hin & Hout & Hsame).
    split; [now constructor|]. split; constructor; auto.
    + split; [now destruct (String.eqb (param_Type p) "")|].
      now destruct (String.eqb_spec (param_Type p) "").
    + unfold same_parameter.
      destruct (String.eqb (param_Type p) ""); repeat split.
Qed.

Lemma validate_tool_accepts (i : nat) (tool : Tool) :
  acceptable_tool tool -> exists tool', validate_tool i tool = inl tool'.
Proof.
  intros (Hname & Hkind & Hparams). unfold validate_tool.
  destruct (String.eqb_spec (tool_Name tool) ""); [contradiction|].
  destruct (hasScript tool), (hasHTTP tool); cbn [negb andb];
    try (now contradiction Hkind);
    destruct (validate_params_accepts (tool_Name tool) _ 0 Hparams) as (ps & ->);
    now eexists.
Qed.

Lemma validate_tool_result (i : nat) (tool tool' : Tool) :
  validate_tool i tool = inl tool' ->
  acceptable_tool tool /\ well_formed_tool tool' /\ same_declaration tool tool'.
Proof.
  unfold validate_tool.
  destruct (String.eqb_spec (tool_Name tool) "") as [|Hname]; [discriminate|].
  destruct (hasScript tool) eqn:Hs, (hasHTTP tool) eqn:Hh; cbn [negb andb];
    try discriminate;
    destruct (validate_params (tool_Name tool) 0 (Parameters tool))
      as [ps|] eqn:Hps; try discriminate;
    intros [= <-];
    destruct (validate_params_result _ _ _ _ Hps) as (Hin & Hout & Hsame).
  - (* a script *)
    unfold acceptable_tool, well_formed_tool, same_declaration, IsHTTP,
      hasScript, hasHTTP in *.
    cbn. rewrite Hs, Hh.
    repeat split; auto; easy.
  - (* an HTTP call *)
    unfold acceptable_tool, well_formed_tool, same_declaration, IsHTTP,
      hasScript, hasHTTP in *.
    cbn. rewrite Hs.
    destruct (String.eqb_spec (Method (HTTP tool)) "") as [Hm|Hm]; cbn;
      rewrite ?Hh; repeat split; auto; easy.
Qed.

Lemma validate_tools_accepts (tools : list Tool) :
  forall i,
    Forall acceptable_tool tools ->
    exists tools', validate_tools i tools = inl tools'.
Proof.
  induction tools as [|t tools IH]; intros i Hall; simpl; [now eexists|].
  inversion Hall as [|? ? Ht Hrest]; subst.
  destruct (validate_tool_accepts i t Ht) as (t' & ->).
  destruct (IH (S i) Hrest) as (tools' & ->). now eexists.
Qed.

Lemma validate_tools_result (tools : list Tool) :
  forall i tools',
    validate_tools i tools = inl tools' ->
    Forall acceptable_tool tools
    /\ Forall well_formed_tool tools'
    /\ Forall2 same_declaration tools tools'.
Proof.
  induction tools as [|t tools IH]; intros i tools'; simpl.
  - intros [= <-]. repeat split; constructor.
  - destruct (validate_tool i t) as [t'|] eqn:Ht; [|discriminate].
    destruct (validate_tools (S i) tools) as [rest|] eqn:Hrest; [|discriminate].
    intros [= <-]. destruct (validate_tool_result _ _ _ Ht) as (Ha & Hw & Hsame).
    destruct (IH _ _ Hrest) as (Has & Hws & Hsames).
    repeat split; constructor; auto.
Qed.

Lemma validate_tools_first_error (good : list Tool) (bad : Tool)
  (rest : list Tool) (e : LoadError) :
  forall i,
    Forall acceptable_tool good ->
    validate_tool (i + List.length good) bad = inr e ->
    validate_tools i (good ++ bad :: rest) = inr e.
Proof.
  induction good as [|t good IH]; intros i Hall Hbad; simpl.
  - rewrite Nat.add_0_r in Hbad. now rewrite Hbad.
  - inversion Hall as [|? ? Ht Hgood]; subst.
    destruct (validate_tool_accepts i t Ht) as (t' & ->).
    rewrite (IH (S i) Hgood); [reflexivity|].
    simpl in Hbad. now rewrite Nat.add_succ_r in Hbad.
Qed.

Lemma Load_success (path : string) (cfg' : Config) :
  Load ReadFile ExpandEnv yaml_Unmarshal path = inl cfg' ->
  exists data cfg,
    ReadFile path = FileData data
    /\ yaml_Unmarshal (ExpandEnv data) = inl cfg
    /\ Tools cfg <> []
    /\ validate_tools 0 (Tools cfg) = inl (Tools cfg')
    /\ Name cfg' = Name (with_defaults cfg)
    /\ Version cfg' = Version (with_defaults cfg)
    /\ Server cfg' = Server (with_defaults cfg)
    /\ Description cfg' = Description cfg.
Proof.
  unfold Load. destruct (ReadFile path) as [data| |err] eqn:Hread;
    try discriminate.
  destruct (yaml_Unmarshal (ExpandEnv data)) as [cfg|err] eqn:Hyaml;
    [|discriminate].
  cbn [with_defaults Tools Name Version Server Description].
  destruct (Tools cfg) as [|t ts] eqn:Htools; [discriminate|].
  cbn [List.length Nat.eqb].
  destruct (validate_tools 0 (t :: ts)) as [tools|] eqn:Hv; [|discriminate].
  intros [= <-]. exists data, cfg. rewrite Htools.
  repeat split; auto. discriminate.
Qed.

(** X20.  [Load] accepts a file exactly when it can be read and decoded,
    declares at least one tool, and each of its tools has a name, is of
    exactly one kind, a script or an HTTP call, and names all its
    parameters.  Nothing else is required: two tools, or two parameters of
    a tool, may share a name. *)
Theorem Load_accepts_exactly (path : string) :
  (exists cfg', Load ReadFile ExpandEnv yaml_Unmarshal path = inl cfg')
  <-> exists data cfg,
        ReadFile path = FileData data
        /\ yaml_Unmarshal (ExpandEnv data) = inl cfg
        /\ Tools cfg <> []
        /\ Forall acceptable_tool (Tools cfg).
Proof.
  split.
  - intros (cfg' & Hload).
    destruct (Load_success _ _ Hload) as (data & cfg & Hread & Hyaml & Hne & Hv & _).
    exists data, cfg. repeat split; auto.
    now destruct (validate_tools_result _ _ _ Hv).
  - intros (data & cfg & Hread & Hyaml & Hne & Hall).
    unfold Load. rewrite Hread, Hyaml. cbn [with_defaults Tools].
    destruct (Tools cfg) as [|t ts] eqn:Htools; [now contradiction Hne|].
    cbn [List.length Nat.eqb].
    destruct (validate_tools_accepts (t :: ts) 0 Hall) as (tools' & ->).
    now eexists.
Qed.

(** X21.  A configuration that [Load] returns has a name, a version and
    a port, and at least one tool; each of its tools has a name, is an
    HTTP call exactly when it is not a script, has a method when it is an
    HTTP call, and has a name and a type for each parameter. *)
Theorem loaded_config_is_well_formed (path : string) (cfg' : Config) :
  Load ReadFile ExpandEnv yaml_Unmarshal path = inl cfg' ->
  Name cfg' <> ""
  /\ Version cfg' <> ""
  /\ Port (Server cfg') <> 0%Z
  /\ Tools cfg' <> []
  /\ Forall well_formed_tool (Tools cfg').
Proof.
  intros Hload.
  destruct (Load_success _ _ Hload)
    as (data & cfg & _ & _ & Hne & Hv & -> & -> & -> & _).
  destruct (validate_tools_result _ _ _ Hv) as (_ & Hw & Hsame).
  unfold with_defaults. cbn [Name Version Server Port].
  split; [|split; [|split; [|split]]].
  - destruct (String.eqb_spec (Name cfg) ""); [discriminate | assumption].
  - destruct (String.eqb_spec (Version cfg) ""); [discriminate | assumption].
  - destruct (Z.eqb_spec (Port (Server cfg)) 0); [discriminate | assumption].
  - intros Hnil. rewrite Hnil in Hsame. inversion Hsame. now apply Hne.
  - exact Hw.
Qed.

(** X22.  [Load] fills in defaults and changes nothing else: the tools
    it returns are those of the file, in order, each as declared in every
    field (name, description, script, environment, URL, headers, body,
    timeout, extraction path, and the name, description, required flag and
    default of each parameter) but for the method of an HTTP call and the
    type of a parameter, which are as declared unless none is declared,
    and are then [GET] and [string]; so a name finds a tool in what is
    loaded exactly when the file declares it. *)
Theorem Load_fills_only_defaults (path : string) (cfg' : Config) :
  Load ReadFile ExpandEnv yaml_Unmarshal path = inl cfg' ->
  exists data cfg,
    ReadFile path = FileData data
    /\ yaml_Unmarshal (ExpandEnv data) = inl cfg
    /\ Forall2 same_declaration (Tools cfg) (Tools cfg')
    /\ map tool_Name (Tools cfg') = map tool_Name (Tools cfg)
    /\ Description cfg' = Description cfg
    /\ Name cfg' = (if String.eqb (Name cfg) "" then "gantz-local" else Name cfg)
    /\ Version cfg' = (if String.eqb (Version cfg) "" then "1.0.0" else Version cfg)
    /\ Port (Server cfg')
       = (if Z.eqb (Port (Server cfg)) 0 then 3000%Z else Port (Server cfg))
    /\ (Name cfg <> "" -> Name cfg' = Name cfg)
    /\ (Version cfg <> "" -> Version cfg' = Version cfg)
    /\ (Port (Server cfg) <> 0%Z -> Server cfg' = Server cfg).
Proof.
  intros Hload.
  destruct (Load_success _ _ Hload)
    as (data & cfg & Hread & Hyaml & _ & Hv & Hn & Hver & Hs & Hd).
  destruct (validate_tools_result _ _ _ Hv) as (_ & _ & Hsame).
  exists data, cfg.
  split; [exact Hread|]. split; [exact Hyaml|]. split; [exact Hsame|].
  split; [|split; [exact Hd|]].
  { clear -Hsame. induction Hsame as [|a b l l' Hab _ IH]; [reflexivity|].
    simpl. rewrite IH. now destruct Hab as (-> & _). }
  split; [now rewrite Hn|]. split; [now rewrite Hver|].
  split; [now rewrite Hs|]. split; [|split].
  - intros Hname. rewrite Hn. unfold with_defaults. cbn.
    destruct (String.eqb_spec (Name cfg) ""); [contradiction | reflexivity].
  - intros Hversion. rewrite Hver. unfold with_defaults. cbn.
    destruct (String.eqb_spec (Version cfg) ""); [contradiction | reflexivity].
  - intros Hport. rewrite Hs. unfold with_defaults. cbn.
    destruct (Z.eqb_spec (Port (Server cfg)) 0); [contradiction|].
    now destruct (Server cfg).
Qed.

(** X23.  [Load] reports the first tool of the file that it does not
    accept: with acceptable tools before it, the error is the one that the
    checks of that tool give at its position, whatever follows. *)
Theorem Load_reports_first_bad_tool (path data : string) (cfg : Config)
  (good : list Tool) (bad : Tool) (rest : list Tool) :
  ReadFile path = FileData data ->
  yaml_Unmarshal (ExpandEnv data) = inl cfg ->
  Tools cfg = (good ++ bad :: rest)%list ->
  Forall acceptable_tool good ->
  ~ acceptable_tool bad ->
  exists e,
    Load ReadFile ExpandEnv yaml_Unmarshal path = inr e
    /\ validate_tool (List.length good) bad = inr e
    /\ (e = ToolNameMissing (List.length good + 1)
        \/ e = NoAction (tool_Name bad)
        \/ e = BothActions (tool_Name bad)
        \/ exists number, e = ParamNameMissing (tool_Name bad) number).
Proof.
  intros Hread Hyaml Htools Hgood Hbad.
  destruct (validate_tool (List.length good) bad) as [t'|e] eqn:Hv.
  { exfalso. apply Hbad. now destruct (validate_tool_result _ _ _ Hv). }
  exists e. split; [|split; [reflexivity|]].
  - unfold Load. rewrite Hread, Hyaml. cbn [with_defaults Tools]. rewrite Htools.
    assert (Hlen : (List.length (good ++ bad :: rest) =? 0)%nat = false).
    { rewrite length_app. simpl. apply Nat.eqb_neq. lia. }
    rewrite Hlen.
    rewrite (validate_tools_first_error good bad rest e 0 Hgood Hv). reflexivity.
  - unfold validate_tool in Hv.
    destruct (String.eqb (tool_Name bad) ""); [left; now injection Hv as <-|].
    destruct (negb (hasScript bad) && negb (hasHTTP bad));
      [right; left; now injection Hv as <-|].
    destruct (hasScript bad && hasHTTP bad);
      [right; right; left; now injection Hv as <-|].
    right; right; right.
    destruct (validate_params (tool_Name bad) 0 (Parameters bad)) as [ps|e'] eqn:Hp;
      [discriminate|]. injection Hv as <-.
    clear -Hp. revert Hp. generalize 0%nat.
    induction (Parameters bad) as [|p ps IH]; intros j; simpl; [discriminate|].
    destruct (String.eqb (param_Name p) ""); [intros [= <-]; now eexists|].
    destruct (validate_params (tool_Name bad) (S j) ps) eqn:Hrest; [discriminate|].
    intros [= <-]. now apply (IH (S j)).
Qed.

End LoadFacts.

Section PathFacts.

Import json observe.

Variable Unmarshal : string -> option Value.
Variable MarshalIndent : Value -> string.
Variable Sscanf_d : string -> Z.

Abbreviation parseJSONPath := (executor.parseJSONPath Sscanf_d).
Abbreviation extracted := (executor.extracted Unmarshal MarshalIndent Sscanf_d).

Lemma SplitByte_not_nil (sep : ascii) (s : string) : strings.SplitByte sep s <> [].
Proof.
  induction s as [|c s IH]; simpl; [discriminate|].
  destruct (Ascii.eqb c sep); [discriminate|].
  destruct (strings.SplitByte sep s); [contradiction | discriminate].
Qed.

Lemma SplitByte_app (sep : ascii) (p q : string) :
  strings.SplitByte sep (p ++ String sep q)
  = (strings.SplitByte sep p ++ strings.SplitByte sep q)%list.
Proof.
  induction p as [|c p IH]; simpl.
  - now rewrite Ascii.eqb_refl.
  - destruct (Ascii.eqb c sep); [now rewrite IH|].
    rewrite IH. pose proof (SplitByte_not_nil sep p) as Hne.
    destruct (strings.SplitByte sep p); [contradiction | reflexivity].
Qed.

Lemma walk_app (s1 s2 : list executor.pathSegment) (v : Value) :
  executor.walk (s1 ++ s2) v
  = match executor.walk s1 v with
    | inl next => executor.walk s2 next
    | inr e => inr e
    end.
Proof.
  revert v. induction s1 as [|seg s1 IH]; intros v; simpl; [reflexivity|].
  destruct (executor.step seg v); [apply IH | reflexivity].
Qed.

(** X24.  Paths compose at a dot: the segments of a path with a dot in
    it are those before the dot followed by those after it, and walking
    the whole path is walking the first part and then, from where that
    leads, the second; an error of the first part is the error of the
    whole. *)
Theorem path_composes_at_dot (p q : string) (v : Value) :
  parseJSONPath (p ++ "." ++ q) = (parseJSONPath p ++ parseJSONPath q)%list
  /\ executor.walk (parseJSONPath (p ++ "." ++ q)) v
     = match executor.walk (parseJSONPath p) v with
       | inl next => executor.walk (parseJSONPath q) next
       | inr e => inr e
       end.
Proof.
  assert (H : parseJSONPath (p ++ "." ++ q)
              = (parseJSONPath p ++ parseJSONPath q)%list).
  { unfold executor.parseJSONPath. cbn [append].
    now rewrite SplitByte_app, map_app. }
  split; [exact H|]. rewrite H. apply walk_app.
Qed.

Lemma plain_key_split (k : string) :
  plain_key k = true ->
  strings.SplitByte "."%char k = [k] /\ strings.CutByte "["%char k = None.
Proof.
  induction k as [|c k IH]; simpl; [auto|].
  intros H. apply andb_prop in H as [H Hk]. apply andb_prop in H as [Hdot Hbr].
  apply negb_true_iff in Hdot, Hbr. rewrite Hdot, Hbr.
  destruct (IH Hk) as (-> & ->). auto.
Qed.

(** X25.  A path that is one plain key, without dot or bracket, is one
    segment; on an object it gives the member under that key, whatever
    its kind, and fails when the object has no such member; on anything
    that is not an object it fails. *)
Theorem plain_key_selects_member (k : string) (v : Value) :
  plain_key k = true ->
  parseJSONPath k = [{| executor.key := k; executor.index := (-1) |}]
  /\ executor.walk (parseJSONPath k) v
     = match v with
       | JObject m =>
           match lookup k m with
           | Some val => inl val
           | None => inr (executor.KeyNotFound k)
           end
       | JArray _ => inr (executor.InvalidIndex (-1))
       | _ => inr (executor.CannotTraverse v)
       end.
Proof.
  intros Hk. destruct (plain_key_split k Hk) as (Hsplit & Hcut).
  assert (H : parseJSONPath k = [{| executor.key := k; executor.index := (-1) |}]).
  { unfold executor.parseJSONPath. rewrite Hsplit. cbn [map]. now rewrite Hcut. }
  split; [exact H|]. rewrite H.
  destruct v as [| b | lit | str | arr | m | f]; cbn; try reflexivity.
  destruct (lookup k m); reflexivity.
Qed.

(** X26.  When the extraction fails, because the body is not JSON or the
    path leads nowhere in it, an HTTP result keeps the whole body as its
    output; when it succeeds the output is the trimmed extract.  The exit
    code follows the status either way. *)
Theorem extraction_failure_keeps_body
  (client_Do : config.Tool -> executor.ArgMap -> executor.HTTPOutcome)
  (tool : config.Tool) (args : executor.ArgMap) (status : Z) (body : string) :
  client_Do tool args = executor.Responded status body ->
  let result := executor.HTTPExecute client_Do extracted tool args in
  (Unmarshal body = None -> executor.Output result = strings.TrimSpace body)
  /\ (extracted body (config.ExtractJSON (config.HTTP tool)) = None ->
      executor.Output result = strings.TrimSpace body)
  /\ (forall text,
        config.ExtractJSON (config.HTTP tool) <> "" ->
        body <> "" ->
        extracted body (config.ExtractJSON (config.HTTP tool)) = Some text ->
        executor.Output result = strings.TrimSpace text)
  /\ executor.ExitCode result = (if (status >=? 400)%Z then 1 else 0)%Z.
Proof.
  intros Hdo. cbv zeta. unfold executor.HTTPExecute. rewrite Hdo.
  cbn [executor.Output executor.ExitCode].
  assert (Hnone : extracted body (config.ExtractJSON (config.HTTP tool)) = None ->
                  strings.TrimSpace
                    (if negb (String.eqb (config.ExtractJSON (config.HTTP tool)) "")
                        && (0 <? String.length body)%nat
                     then match extracted body (config.ExtractJSON (config.HTTP tool)) with
                          | Some e => e
                          | None => body
                          end
                     else body)
                  = strings.TrimSpace body).
  { intros ->. now destruct (_ && _). }
  split; [|split; [|split]].
  - intros Hjson. apply Hnone. unfold executor.extracted, executor.extractJSONPath.
    now rewrite Hjson.
  - exact Hnone.
  - intros text Hpath Hbody ->.
    destruct (String.eqb_spec (config.ExtractJSON (config.HTTP tool)) "");
      [contradiction|].
    destruct body; [now contradiction Hbody | reflexivity].
  - reflexivity.
Qed.

End PathFacts.

(** * The further properties at concrete inputs *)

Section MoreEvaluations.

Import json observe.

(** X3 at a concrete input. *)
Lemma read_loop_dispatches_by_type_witness :
  spawned
    (snd (tunnel.handleMessages sample.client
            (map tunnel.ReadOK
               [tunnel.frame "ping" "" None;
                tunnel.frame "request" "r-1" sample.ping_payload]
             ++ [tunnel.ReadFailed (tunnel.OtherReadError "unexpected EOF")])))
  = [tunnel.frame "request" "r-1" sample.ping_payload]
  /\ written
       (snd (tunnel.handleMessages sample.client
               (map tunnel.ReadOK
                  [tunnel.frame "ping" "" None;
                   tunnel.frame "request" "r-1" sample.ping_payload]
                ++ [tunnel.ReadFailed (tunnel.OtherReadError "unexpected EOF")])))
     = [tunnel.sendPong].
Proof.
  destruct (read_loop_dispatches_by_type sample.client
              [tunnel.frame "ping" "" None;
               tunnel.frame "request" "r-1" sample.ping_payload]
              [tunnel.ReadFailed (tunnel.OtherReadError "unexpected EOF")]
              (or_intror (ex_intro _ _ (ex_intro _ [] eq_refl))))
    as (Hs & Hw & _).
  split; [exact Hs | exact Hw].
Defined.

(** X5 at a concrete input. *)
Lemma Connect_failure_policy_witness :
  snd (snd (tunnel.Connect sample.client (tunnel.DialFailed (Some 426%Z) "bad handshake")
              (tunnel.ReadOK sample.error_frame))) <> None
  /\ fst (tunnel.Connect sample.client (tunnel.DialFailed (Some 426%Z) "bad handshake")
            (tunnel.ReadOK sample.error_frame)) = sample.client
  /\ snd (snd (tunnel.Connect sample.client (tunnel.DialFailed (Some 426%Z) "bad handshake")
                 (tunnel.ReadOK sample.error_frame)))
     = Some "version outdated - run: gantz update".
Proof.
  assert (H : snd (snd (tunnel.Connect sample.client
                          (tunnel.DialFailed (Some 426%Z) "bad handshake")
                          (tunnel.ReadOK sample.error_frame))) <> None)
    by discriminate.
  split; [exact H|].
  exact (proj2 (proj2 (Connect_failure_policy sample.client
                         (tunnel.DialFailed (Some 426%Z) "bad handshake")
                         (tunnel.ReadOK sample.error_frame) H))).
Defined.

(** X6 at a concrete input. *)
Lemma session_lifecycle_witness :
  tunnel.msg_Type
    {| tunnel.msg_Type := "registered"; tunnel.TunnelID := "t-1";
       tunnel.TunnelURL := "https://t-1.gantz.run"; tunnel.RequestID := "";
       tunnel.Payload := None; tunnel.msg_Error := ""; tunnel.ClientIP := "" |}
  = "registered"
  /\ snd (tunnel.Connect
            (tunnel.NewClient "wss://relay.gantz.run" sample.failing_handler "0.3.4" 1%Z)
            tunnel.DialOK
            (tunnel.ReadOK
               {| tunnel.msg_Type := "registered"; tunnel.TunnelID := "t-1";
                  tunnel.TunnelURL := "https://t-1.gantz.run";
                  tunnel.RequestID := ""; tunnel.Payload := None;
                  tunnel.msg_Error := ""; tunnel.ClientIP := "" |}))
     = ("https://t-1.gantz.run", None).
Proof.
  split; [reflexivity|].
  exact (proj1 (session_lifecycle "wss://relay.gantz.run" "0.3.4"
                  sample.failing_handler 1%Z
                  {| tunnel.msg_Type := "registered"; tunnel.TunnelID := "t-1";
                     tunnel.TunnelURL := "https://t-1.gantz.run";
                     tunnel.RequestID := ""; tunnel.Payload := None;
                     tunnel.msg_Error := ""; tunnel.ClientIP := "" |}
                  [] (tunnel.OtherReadError "unexpected EOF") [] eq_refl)).
Defined.

(** X8 at a concrete input. *)
Lemma answer_depends_on_one_invocation_witness :
  invocation (sample.server [sample.hello])
    (sample.request (JNumber "1") "tools/list" None) = None
  /\ mcp.HandleRequest sample.cmd_Run sample.client_Do sample.extractJSONPath
       (sample.server [sample.hello])
       (sample.request (JNumber "1") "tools/list" None)
     = mcp.HandleRequest sample.failing_Run sample.client_Do
         sample.extractJSONPath (sample.server [sample.hello])
         (sample.request (JNumber "1") "tools/list" None).
Proof.
  split; [reflexivity|].
  exact (answer_depends_on_one_invocation sample.cmd_Run sample.failing_Run
           sample.client_Do sample.client_Do sample.extractJSONPath
           sample.extractJSONPath (sample.server [sample.hello])
           (sample.request (JNumber "1") "tools/list" None) I).
Defined.

(** X11 at a concrete input. *)
Lemma tool_call_content_is_one_text_block_witness :
  invocation (sample.server [sample.hello])
    (sample.request (JNumber "1") "tools/call"
       (sample.call_params "hello" "name" "World"))
  = Some (sample.hello, Some [("name", JString "World")])
  /\ exists resp text,
      sample.dispatcher (sample.server [sample.hello])
        (sample.request (JNumber "1") "tools/call"
           (sample.call_params "hello" "name" "World"))
      = (Some resp, None)
      /\ result_member "content" resp = Some (JArray [text_block text]).
Proof.
  split; [reflexivity|].
  destruct (tool_call_content_is_one_text_block sample.cmd_Run sample.client_Do
              sample.extractJSONPath (sample.server [sample.hello])
              (sample.request (JNumber "1") "tools/call"
                 (sample.call_params "hello" "name" "World"))
              sample.hello (Some [("name", JString "World")]) eq_refl)
    as (resp & text & Hresp & Hcontent & _).
  exists resp, text. split; [exact Hresp | exact Hcontent].
Defined.

(** X14 at a concrete input. *)
Lemma call_runs_what_list_shows_witness :
  listed_names
    (sample.dispatcher (sample.server [sample.hello; sample.list_files])
       (sample.request (JNumber "1") "tools/list" None))
  = ["hello"; "list_files"].
Proof.
  exact (proj1 (call_runs_what_list_shows sample.cmd_Run sample.client_Do
                  sample.extractJSONPath
                  (sample.server [sample.hello; sample.list_files])
                  (sample.request (JNumber "1") "tools/list" None)
                  (sample.request (JNumber "2") "tools/call"
                     (sample.call_params "hello" "name" "World"))
                  {| mcp.Name := "hello";
                     mcp.Arguments := Some [("name", JString "World")] |}
                  eq_refl eq_refl eq_refl)).
Defined.

(** X17 at a concrete input. *)
Lemma failed_command_without_output_witness :
  exists resp,
    mcp.HandleRequest sample.failing_Run sample.client_Do sample.extractJSONPath
      (sample.server [sample.hello])
      (sample.request (JNumber "1") "tools/call"
         (sample.call_params "hello" "name" "World"))
    = (Some resp, None)
    /\ result_member "content" resp
       = Some (JArray [text_block "Error: exec: not found"])
    /\ result_member "isError" resp = Some (JBool true).
Proof.
  exact (failed_command_without_output sample.failing_Run sample.client_Do
           sample.extractJSONPath (sample.server [sample.hello])
           (sample.request (JNumber "1") "tools/call"
              (sample.call_params "hello" "name" "World"))
           sample.hello (Some [("name", JString "World")]) "" ""
           (executor.OtherRunError "exec: not found")
           eq_refl eq_refl eq_refl eq_refl).
Defined.

(** X18 at a concrete input. *)
Lemma expandArgs_leaves_unmentioned_witness :
  executor.expandArgs sample.Sprint "ls -la {{path}}"
    [("name", JString "World"); ("dir", JString "/tmp")]
  = "ls -la {{path}}".
Proof.
  apply expandArgs_leaves_unmentioned.
  repeat constructor.
Defined.

(** X19 at a concrete input. *)
Lemma expandArgs_fills_placeholder_witness :
  executor.expandArgs sample.Sprint
    ("echo Hello, " ++ executor.placeholder "name" ++ "!")
    [("name", JString "World")]
  = "echo Hello, " ++ sample.Sprint (JString "World") ++ "!".
Proof.
  exact (expandArgs_fills_placeholder sample.Sprint "echo Hello, " "!" "name"
           (JString "World") eq_refl eq_refl).
Defined.

(** X21 at a concrete input. *)
Lemma loaded_config_is_well_formed_witness :
  config.Load sample.ReadFile sample.ExpandEnv sample.yaml_Unmarshal "gantz.yaml"
  = inl {| config.Name := "gantz-local"; config.Description := "";
           config.Version := "1.0.0"; config.Server := {| config.Port := 3000 |};
           config.Tools := [sample.get_weather_loaded; sample.hello] |}
  /\ Forall well_formed_tool [sample.get_weather_loaded; sample.hello].
Proof.
  split; [reflexivity|].
  exact (proj2 (proj2 (proj2 (proj2
           (loaded_config_is_well_formed sample.ReadFile sample.ExpandEnv
              sample.yaml_Unmarshal "gantz.yaml" _ eq_refl))))).
Defined.

(** X22 at a file that declares [get_weather] without its method and
    without the type of its parameter, and [hello]. *)
Lemma Load_fills_only_defaults_witness :
  config.Load sample.ReadFile sample.ExpandEnv sample.yaml_Unmarshal "gantz.yaml"
  = inl {| config.Name := "gantz-local"; config.Description := "";
           config.Version := "1.0.0";
           config.Server := {| config.Port := 3000 |};
           config.Tools := [sample.get_weather_loaded; sample.hello] |}
  /\ exists data cfg,
      sample.ReadFile "gantz.yaml" = config.FileData data
      /\ sample.yaml_Unmarshal (sample.ExpandEnv data) = inl cfg
      /\ Forall2 same_declaration (config.Tools cfg)
           [sample.get_weather_loaded; sample.hello].
Proof.
  split; [reflexivity|].
  destruct (Load_fills_only_defaults sample.ReadFile sample.ExpandEnv
              sample.yaml_Unmarshal "gantz.yaml"
              {| config.Name := "gantz-local"; config.Description := "";
                 config.Version := "1.0.0";
                 config.Server := {| config.Port := 3000 |};
                 config.Tools := [sample.get_weather_loaded; sample.hello] |}
              eq_refl)
    as (data & cfg & Hread & Hyaml & Hsame & _).
  exists data, cfg. auto.
Defined.

(** X23 at a concrete input. *)
Lemma Load_reports_first_bad_tool_witness :
  ~ acceptable_tool sample.nameless
  /\ exists e,
      config.Load sample.ReadFile sample.ExpandEnv sample.yaml_Unmarshal_bad
        "gantz.yaml" = inr e
      /\ config.validate_tool 1 sample.nameless = inr e.
Proof.
  assert (Hbad : ~ acceptable_tool sample.nameless).
  { intros (Hname & _). now apply Hname. }
  split; [exact Hbad|].
  destruct (Load_reports_first_bad_tool sample.ReadFile sample.ExpandEnv
              sample.yaml_Unmarshal_bad "gantz.yaml" "tools: ..."
              (sample.decoded [sample.hello; sample.nameless; sample.list_files])
              [sample.hello] sample.nameless [sample.list_files]
              eq_refl eq_refl eq_refl)
    as (e & Hload & Hv & _).
  - repeat constructor; try discriminate. 
  - exact Hbad.
  - exists e. auto.
Defined.

(** X25 at a concrete input. *)
Lemma plain_key_selects_member_witness :
  executor.walk (executor.parseJSONPath sample.Sscanf_d "temperature")
    (JObject [("temperature", JString "21")])
  = inl (JString "21").
Proof.
  exact (proj2 (plain_key_selects_member sample.Sscanf_d "temperature"
                  (JObject [("temperature", JString "21")]) eq_refl)).
Defined.

(** X26 at a concrete input. *)
Lemma extraction_failure_keeps_body_witness :
  executor.ExitCode
    (executor.HTTPExecute sample.client_Do
       (executor.extracted sample.Unmarshal sample.MarshalIndent sample.Sscanf_d)
       sample.weather_without_method (Some [("city", JString "Oslo")]))
  = 1%Z.
Proof.
  exact (proj2 (proj2 (proj2
           (extraction_failure_keeps_body sample.Unmarshal sample.MarshalIndent
              sample.Sscanf_d sample.client_Do sample.weather_without_method
              (Some [("city", JString "Oslo")]) 404%Z "not found" eq_refl)))).
Defined.

End MoreEvaluations.
